(** * Conversation store and completion client of the chatbot

    A shallow embedding of [config.py], [llm_service.py] and
    [chat_manager.py].  Python values are modelled by the Rocq data that
    carries the same information:

    - [str] is [string], one [ascii] per character;
    - [int] is [Z];
    - [float] is an IEEE 754 binary64 number, [spec_float] with precision 53
      and maximal exponent 1024, with the correctly rounded operations of
      [SpecFloat];
    - a [dict] used as a table is a [gmap]; a [dict] that is written to a
      JSON file keeps its insertion order and is an association list;
    - effects (the remote endpoint, the clock, the log, the storage
      directory) are threaded through an explicit world in a state and
      exception monad. *)

From Stdlib Require Import ZArith String Ascii List Bool Lia.
From Stdlib Require Import Floats.SpecFloat DecimalString.
From stdpp Require Import gmap strings list.

Local Open Scope string_scope.

(** ** Fragments of the Python runtime *)
Module Py.

(** *** Exceptions *)

(** The built-in classes the services can meet, and the error classes of
    the [openai] package (release 1.x, the one that provides
    [openai.OpenAI] and [client.chat.completions.create]). *)
Inductive exn_class :=
  | BaseException | KeyboardInterrupt | Exception
  | LookupError | KeyError | TypeError | AttributeError
  | OpenAIError | APIError
  | APIResponseValidationError | APIStatusError | APIConnectionError
  | APITimeoutError
  | BadRequestError | AuthenticationError | PermissionDeniedError
  | NotFoundError | ConflictError | UnprocessableEntityError
  | RateLimitError | InternalServerError.

#[global] Instance exn_class_eq_dec : EqDecision exn_class.
Proof. solve_decision. Defined.

(** The base class in each class statement. *)
Definition base (c : exn_class) : option exn_class :=
  match c with
  | BaseException => None
  | KeyboardInterrupt => Some BaseException
  | Exception => Some BaseException
  | LookupError => Some Exception
  | KeyError => Some LookupError
  | TypeError => Some Exception
  | AttributeError => Some Exception
  | OpenAIError => Some Exception
  | APIError => Some OpenAIError
  | APIResponseValidationError => Some APIError
  | APIStatusError => Some APIError
  | APIConnectionError => Some APIError
  | APITimeoutError => Some APIConnectionError
  | BadRequestError => Some APIStatusError
  | AuthenticationError => Some APIStatusError
  | PermissionDeniedError => Some APIStatusError
  | NotFoundError => Some APIStatusError
  | ConflictError => Some APIStatusError
  | UnprocessableEntityError => Some APIStatusError
  | RateLimitError => Some APIStatusError
  | InternalServerError => Some APIStatusError
  end.

Fixpoint issubclass_upto (depth : nat) (c d : exn_class) : bool :=
  if bool_decide (c = d) then true
  else match depth, base c with
       | S depth', Some p => issubclass_upto depth' p d
       | _, _ => false
       end.

(** No chain of base classes is longer than six. *)
Definition issubclass : exn_class -> exn_class -> bool := issubclass_upto 6.

(** A raised exception: its class and [str(e)]. *)
Record exn := { exn_class_of : exn_class; str_of_exn : string }.

Definition isinstance (e : exn) (c : exn_class) : bool :=
  issubclass (exn_class_of e) c.

(** *** Numbers *)

Abbreviation float := spec_float.

Definition prec : Z := 53.
Definition emax : Z := 1024.

Definition float_of_int (z : Z) : float := binary_normalize prec emax z 0 false.
Definition fdiv : float -> float -> float := SFdiv prec emax.
Definition fmul : float -> float -> float := SFmul prec emax.
Definition fsub : float -> float -> float := SFsub prec emax.
Definition flt : float -> float -> bool := SFltb.

(** [a / b] on two [int]s that a binary64 number holds exactly. *)
Definition int_truediv (a b : Z) : float :=
  fdiv (float_of_int a) (float_of_int b).

(** The decimal literal [n / 10^k]: the binary64 number nearest to it. *)
Definition float_literal (n : Z) (k : nat) : float :=
  fdiv (float_of_int n) (float_of_int (10 ^ Z.of_nat k)).

(** [min(a, b)] and [max(a, b)]: the first argument unless the second is
    strictly smaller (larger). *)
Definition min_float (a b : float) : float := if flt b a then b else a.
Definition max_float (a b : float) : float := if flt a b then b else a.
Definition min_int (a b : Z) : Z := if (b <? a)%Z then b else a.

(** A value that is an [int] on some paths and a [float] on others. *)
Inductive number :=
  | PyInt (z : Z)
  | PyFloat (f : float).

(** *** Strings *)

Definition len (s : string) : Z := Z.of_nat (String.length s).

Definition truthy (s : string) : bool :=
  match s with
  | EmptyString => false
  | String _ _ => true
  end.

(** [str.isspace] on one character (code points below 256). *)
Definition isspace (c : ascii) : bool :=
  let n := N_of_ascii c in
  ((9 <=? n) && (n <=? 13) || (28 <=? n) && (n <=? 32)
   || (n =? 133) || (n =? 160))%N.

Fixpoint lstrip (s : string) : string :=
  match s with
  | EmptyString => EmptyString
  | String c s' => if isspace c then lstrip s' else s
  end.

Fixpoint rstrip (s : string) : string :=
  match s with
  | EmptyString => EmptyString
  | String c s' =>
      match rstrip s' with
      | EmptyString => if isspace c then EmptyString else String c EmptyString
      | r => String c r
      end
  end.

Definition strip (s : string) : string := rstrip (lstrip s).

(** [str(n)] for an [int]. *)
Definition str_of_int (z : Z) : string := NilZero.string_of_int (Z.to_int z).

(** *** Computations with state and exceptions *)

Inductive outcome (A : Type) :=
  | Return (a : A)
  | Raise (e : exn).
Arguments Return {A} a.
Arguments Raise {A} e.

Definition M (W A : Type) : Type := W -> outcome A * W.

Definition ret {W A} (a : A) : M W A := fun w => (Return a, w).

Definition raise {W A} (e : exn) : M W A := fun w => (Raise e, w).

Definition bind {W A B} (c : M W A) (k : A -> M W B) : M W B :=
  fun w =>
    match c w with
    | (Return a, w') => k a w'
    | (Raise e, w') => (Raise e, w')
    end.

(** [try: body  except ... as e: handler e]. *)
Definition try_except {W A} (body : M W A) (handler : exn -> M W A) : M W A :=
  fun w =>
    match body w with
    | (Return a, w') => (Return a, w')
    | (Raise e, w') => handler e w'
    end.

End Py.

Export Py.

Notation "x <- c ; k" := (bind c (fun x => k))
  (at level 20, c at level 100, k at level 200, only parsing).
Notation "c >> k" := (bind c (fun _ => k))
  (at level 20, k at level 200, only parsing).

(** ** config.py *)
Module Config.

Definition MAX_MESSAGE_LENGTH : Z := 4000.
Definition API_TIMEOUT : Z := 30.
Definition MAX_RETRIES : Z := 3.

End Config.

(** ** llm_service.py *)
Module LLMService.

(** One entry of [self.models]. *)
Record model_info := {
  name : string;
  description : string;
  cost_per_1k : float;
  max_tokens : Z;
  supports_functions : bool
}.

Definition models : gmap string model_info :=
  <["gpt-3.5-turbo" :=
      {| name := "GPT-3.5 Turbo";
         description := "Fast and efficient for most tasks";
         cost_per_1k := float_literal 15 4;
         max_tokens := 4096;
         supports_functions := true |}]>
  (<["gpt-4" :=
      {| name := "GPT-4";
         description := "Most capable model for complex tasks";
         cost_per_1k := float_literal 3 2;
         max_tokens := 8192;
         supports_functions := true |}]>
  (<["gpt-4-turbo" :=
      {| name := "GPT-4 Turbo";
         description := "Latest GPT-4 with improved speed";
         cost_per_1k := float_literal 1 2;
         max_tokens := 128000;
         supports_functions := true |}]> ∅)).

Definition get_available_models : gmap string model_info := models.

Definition estimate_cost (message model : string) : float :=
  match models !! model with
  | None => S754_zero false
  | Some info =>
      let estimated_tokens := int_truediv (len message) 4 in
      fmul (fdiv estimated_tokens (float_of_int 1000)) (cost_per_1k info)
  end.

(** *** The remote endpoint, the clock and the log *)

(** One entry of the [messages] argument. *)
Record turn := { role : string; content : string }.

(** The keyword arguments of [client.chat.completions.create]. *)
Record request := {
  req_model : string;
  req_messages : list turn;
  req_max_tokens : Z;
  req_temperature : float;
  req_timeout : Z
}.

(** The part of the returned object that [send_message] reads. *)
Record completion_message := { message_content : option string }.
Record choice := { message : option completion_message }.
Record usage_info := { total_tokens : Z }.
Record response := { choices : list choice; usage : option usage_info }.

Inductive reply :=
  | Responds (r : response)
  | Fails (e : exn).

(** What the process cannot decide: the reply to the k-th remote call and
    the k-th reading of [time.time()]. *)
Record env := {
  create : nat -> request -> reply;
  time_time : nat -> float
}.

(** What a call leaves behind: the requests sent (newest first), the number
    of clock readings, the [time.sleep] arguments and the lines logged
    (both newest first). *)
Record world := {
  calls : list request;
  clock_reads : nat;
  sleeps : list Z;
  logged : list string
}.

Definition with_call (req : request) (w : world) : world :=
  {| calls := req :: calls w; clock_reads := clock_reads w;
     sleeps := sleeps w; logged := logged w |}.

Definition completions_create (E : env) (req : request) : M world response :=
  fun w =>
    let w' := with_call req w in
    match create E (length (calls w)) req with
    | Responds r => (Return r, w')
    | Fails e => (Raise e, w')
    end.

Definition with_clock_read (w : world) : world :=
  {| calls := calls w; clock_reads := S (clock_reads w);
     sleeps := sleeps w; logged := logged w |}.

Definition time (E : env) : M world float :=
  fun w => (Return (time_time E (clock_reads w)), with_clock_read w).

Definition sleep (seconds : Z) : M world unit :=
  fun w =>
    (Return tt,
     {| calls := calls w; clock_reads := clock_reads w;
        sleeps := seconds :: sleeps w; logged := logged w |}).

Definition logger_error (line : string) : M world unit :=
  fun w =>
    (Return tt,
     {| calls := calls w; clock_reads := clock_reads w;
        sleeps := sleeps w; logged := line :: logged w |}).

(** [self.models[model]]. *)
Definition models_getitem (model : string) : M world model_info :=
  match models !! model with
  | Some info => ret info
  | None => raise {| exn_class_of := KeyError; str_of_exn := model |}
  end.

(** *** send_message *)

(** The two shapes of the returned dict.  [Failure] has [success = False]
    and [response = None]; [Success] has [success = True] and
    [error = None] and carries the three additional keys. *)
Inductive result :=
  | Success (response : option string) (response_time : float)
      (model_used : string) (tokens_used : option Z) (estimated_cost : float)
  | Failure (error : string) (response_time : number).

Definition success (r : result) : bool :=
  match r with
  | Success _ _ _ _ _ => true
  | Failure _ _ => false
  end.

Definition error (r : result) : option string :=
  match r with
  | Success _ _ _ _ _ => None
  | Failure e _ => Some e
  end.

Definition response_time (r : result) : number :=
  match r with
  | Success _ t _ _ _ => PyFloat t
  | Failure _ t => t
  end.

(** How one iteration of the retry loop ends. *)
Inductive flow :=
  | Returned (r : result)
  | Continue.

(** Lines 91-92. *)
Definition resolve_model (model : string) : string :=
  match models !! model with
  | None => "gpt-3.5-turbo"
  | Some _ => model
  end.

(** Lines 95-98. *)
Definition prepare_messages (message : string) (system_prompt : option string)
  : list turn :=
  (match system_prompt with
   | Some p => if truthy p then [{| role := "system"; content := p |}] else []
   | None => []
   end) ++ [{| role := "user"; content := message |}].

(** Line 108. *)
Definition clamp_temperature (temperature : float) : float :=
  max_float (S754_zero false) (min_float (float_of_int 2) temperature).

(** The keyword arguments of the call, lines 105-109. *)
Definition completion_request (model : string) (messages : list turn)
    (max_tokens : Z) (temperature : float) (info : model_info) : request :=
  {| req_model := model;
     req_messages := messages;
     req_max_tokens := min_int max_tokens (LLMService.max_tokens info);
     req_temperature := clamp_temperature temperature;
     req_timeout := Config.API_TIMEOUT |}.

(** The body of the [try], lines 104-130. *)
Definition attempt_body (E : env) (message model : string)
    (messages : list turn) (max_tokens : Z) (temperature : float)
    (start_time : float) : M world flow :=
  info <- models_getitem model ;
  response <- completions_create E
    (completion_request model messages max_tokens temperature info) ;
  now <- time E ;
  let response_time := fsub now start_time in
  match choices response with
  | {| message := Some m |} :: _ =>
      ret (Returned
             (Success (message_content m) response_time model
                (match usage response with
                 | Some u => Some (total_tokens u)
                 | None => None
                 end)
                (estimate_cost message model)))
  | _ =>
      ret (Returned (Failure "Empty response from API" (PyFloat response_time)))
  end.

(** The [except] clauses, lines 132-171, tried in the order they are
    written. *)
Definition attempt_handlers (E : env) (attempt : Z) (start_time : float)
    (e : exn) : M world flow :=
  if isinstance e APIError then
    logger_error ("OpenAI API error (attempt " ++ str_of_int (attempt + 1)
                  ++ "): " ++ str_of_exn e) >>
    if (attempt =? Config.MAX_RETRIES - 1)%Z then
      now <- time E ;
      ret (Returned (Failure ("API Error: " ++ str_of_exn e)
                       (PyFloat (fsub now start_time))))
    else
      sleep 1 >> ret Continue
  else if isinstance e RateLimitError then
    logger_error ("Rate limit exceeded (attempt " ++ str_of_int (attempt + 1)
                  ++ "): " ++ str_of_exn e) >>
    if (attempt =? Config.MAX_RETRIES - 1)%Z then
      now <- time E ;
      ret (Returned (Failure "Rate limit exceeded. Please try again later."
                       (PyFloat (fsub now start_time))))
    else
      sleep 2 >> ret Continue
  else if isinstance e AuthenticationError then
    now <- time E ;
    ret (Returned (Failure "Invalid API key. Please check your configuration."
                     (PyFloat (fsub now start_time))))
  else if isinstance e Exception then
    logger_error ("Unexpected error (attempt " ++ str_of_int (attempt + 1)
                  ++ "): " ++ str_of_exn e) >>
    if (attempt =? Config.MAX_RETRIES - 1)%Z then
      now <- time E ;
      ret (Returned (Failure ("Unexpected error: " ++ str_of_exn e)
                       (PyFloat (fsub now start_time))))
    else
      sleep 1 >> ret Continue
  else raise e.

(** [for attempt in range(...)], from [attempt] on with [remaining]
    iterations left.  The function returns [None] when the loop runs out. *)
Fixpoint retry_loop (E : env) (message model : string) (messages : list turn)
    (max_tokens : Z) (temperature : float) (start_time : float)
    (remaining : nat) (attempt : Z) : M world (option result) :=
  match remaining with
  | O => ret None
  | S remaining' =>
      f <- try_except
             (attempt_body E message model messages max_tokens temperature
                start_time)
             (attempt_handlers E attempt start_time) ;
      match f with
      | Returned r => ret (Some r)
      | Continue =>
          retry_loop E message model messages max_tokens temperature
            start_time remaining' (attempt + 1)
      end
  end.

Definition send_message (E : env) (message model : string)
    (temperature : float) (max_tokens : Z) (system_prompt : option string)
  : M world (option result) :=
  if negb (truthy message) || negb (truthy (strip message)) then
    ret (Some (Failure "Empty message provided" (PyInt 0)))
  else if (len message >? Config.MAX_MESSAGE_LENGTH)%Z then
    ret (Some (Failure ("Message too long. Maximum "
                        ++ str_of_int Config.MAX_MESSAGE_LENGTH
                        ++ " characters allowed.") (PyInt 0)))
  else
    let model := resolve_model model in
    let messages := prepare_messages message system_prompt in
    start_time <- time E ;
    retry_loop E message model messages max_tokens temperature start_time
      (Z.to_nat Config.MAX_RETRIES) 0.

Definition test_connection (E : env) (model : string)
  : M world (option result) :=
  send_message E "Hello! This is a connection test." model
    (float_literal 7 1) 1000 None.

(** The remote calls made between two worlds. *)
Definition calls_made (before after : world) : nat :=
  length (calls after) - length (calls before).

End LLMService.

(** ** JSON values and [datetime] *)
Module Json.

(** What [json.dump] writes and [json.load] reads back.  A [dict] is the
    list of its items in insertion order, each key once. *)
#[warnings="-register-all"]
Inductive json :=
  | JNull
  | JBool (b : bool)
  | JInt (z : Z)
  | JFloat (f : float)
  | JStr (s : string)
  | JList (l : list json)
  | JDict (d : list (string * json)).

(** [bool(v)]. *)
Definition json_truthy (v : json) : bool :=
  match v with
  | JNull => false
  | JBool b => b
  | JInt z => negb (z =? 0)%Z
  | JFloat f => negb (SFeqb f (S754_zero false))
  | JStr s => truthy s
  | JList l => match l with [] => false | _ :: _ => true end
  | JDict d => match d with [] => false | _ :: _ => true end
  end.

Fixpoint dict_get (k : string) (d : list (string * json)) : option json :=
  match d with
  | [] => None
  | (k', v) :: d' => if String.eqb k k' then Some v else dict_get k d'
  end.

(** [d[k] = v]: an existing key keeps its place, a new one goes last. *)
Fixpoint dict_set (k : string) (v : json) (d : list (string * json))
  : list (string * json) :=
  match d with
  | [] => [(k, v)]
  | (k', v') :: d' =>
      if String.eqb k k' then (k, v) :: d' else (k', v') :: dict_set k v d'
  end.

(** [v[k]] for a string key. *)
Definition getitem {W} (v : json) (k : string) : M W json :=
  match v with
  | JDict d =>
      match dict_get k d with
      | Some x => ret x
      | None => raise {| exn_class_of := KeyError; str_of_exn := k |}
      end
  | _ => raise {| exn_class_of := TypeError;
                  str_of_exn := "indices must be integers" |}
  end.

(** The field [k] of a stored record, when the record is a [dict]. *)
Definition field (k : string) (v : json) : option json :=
  match v with
  | JDict d => dict_get k d
  | _ => None
  end.

End Json.

Export Json.

Module Datetime.

Local Open Scope Z_scope.

(** A naive [datetime] as the interpreter holds it. *)
Record datetime := {
  year : Z; month : Z; day : Z;
  hour : Z; minute : Z; second : Z; microsecond : Z
}.

(** The ranges the [datetime] constructor enforces. *)
Definition valid (t : datetime) : Prop :=
  1 <= year t <= 9999 /\ 1 <= month t <= 12 /\ 1 <= day t <= 31 /\
  0 <= hour t <= 23 /\ 0 <= minute t <= 59 /\ 0 <= second t <= 59 /\
  0 <= microsecond t <= 999999.

(** The fields in the order [datetime] compares them. *)
Definition fields (t : datetime) : list Z :=
  [year t; month t; day t; hour t; minute t; second t; microsecond t].

Fixpoint lex_compare (a b : list Z) : comparison :=
  match a, b with
  | [], [] => Eq
  | [], _ :: _ => Lt
  | _ :: _, [] => Gt
  | x :: a', y :: b' =>
      match x ?= y with
      | Eq => lex_compare a' b'
      | c => c
      end
  end.

Definition compare (a b : datetime) : comparison :=
  lex_compare (fields a) (fields b).

(** [a <= b] on two [datetime]s. *)
Definition leb (a b : datetime) : bool :=
  match compare a b with
  | Gt => false
  | _ => true
  end.

Definition digit (d : Z) : ascii := ascii_of_N (48 + Z.to_N d).

(** The [width] lowest decimal digits of [n], highest first: [%0<width>d]
    for [0 <= n < 10 ^ width]. *)
Fixpoint digits (width : nat) (n : Z) : string :=
  match width with
  | O => EmptyString
  | S w => String (digit ((n / 10 ^ Z.of_nat w) mod 10)) (digits w n)
  end.

Definition isoformat (t : datetime) : string :=
  (digits 4 (year t) ++ "-" ++ digits 2 (month t) ++ "-" ++ digits 2 (day t)
   ++ "T" ++ digits 2 (hour t) ++ ":" ++ digits 2 (minute t) ++ ":"
   ++ digits 2 (second t)
   ++ (if (microsecond t =? 0)%Z then ""
       else "." ++ digits 6 (microsecond t)))%string.

Definition month_name (m : Z) : string :=
  match m with
  | 1 => "January" | 2 => "February" | 3 => "March" | 4 => "April"
  | 5 => "May" | 6 => "June" | 7 => "July" | 8 => "August"
  | 9 => "September" | 10 => "October" | 11 => "November"
  | _ => "December"
  end.

(** [strftime("%Y%m%d_%H%M%S")]. *)
Definition strftime_id (t : datetime) : string :=
  (digits 4 (year t) ++ digits 2 (month t) ++ digits 2 (day t) ++ "_"
   ++ digits 2 (hour t) ++ digits 2 (minute t) ++ digits 2 (second t))%string.

(** [strftime('%B %d at %I:%M %p')] in the C locale. *)
Definition strftime_title (t : datetime) : string :=
  (month_name (month t) ++ " " ++ digits 2 (day t) ++ " at "
   ++ digits 2 (if (hour t mod 12 =? 0)%Z then 12 else hour t mod 12) ++ ":"
   ++ digits 2 (minute t) ++ " "
   ++ (if (hour t <? 12)%Z then "AM" else "PM"))%string.

End Datetime.

(** ** chat_manager.py *)
Module ChatManager.

Import Datetime.

(** The content of a file of the storage directory: a JSON document, or
    bytes that [json.load] rejects. *)
Inductive file :=
  | Document (v : json)
  | Malformed.

(** The k-th reading of [datetime.now()]. *)
Record env := { now : nat -> datetime }.

(** The storage directory, by file name, and the number of clock readings
    so far.  Opening, writing and removing a file of the directory always
    succeed; a conversation id is a plain file name. *)
Record world := {
  fs : gmap string file;
  clock : nat
}.

Definition datetime_now (E : env) : M world datetime :=
  fun w => (Return (now E (clock w)), {| fs := fs w; clock := S (clock w) |}).

(** [self.storage_dir / f"{conversation_id}.json"], relative to the
    storage directory. *)
Definition file_path (conversation_id : string) : string :=
  conversation_id ++ ".json".

Definition write_file (path : string) (v : json) : M world unit :=
  fun w => (Return tt, {| fs := <[path := Document v]> (fs w); clock := clock w |}).

Definition unlink (path : string) : M world unit :=
  fun w => (Return tt, {| fs := delete path (fs w); clock := clock w |}).

Definition read_file (path : string) : M world (option file) :=
  fun w => (Return (fs w !! path), w).

Definition save_conversation (E : env) (conversation_id : string)
    (conversation_data : json) : M world unit :=
  let path := file_path conversation_id in
  t <- datetime_now E ;
  match conversation_data with
  | JDict d =>
      write_file path (JDict (dict_set "updated_at" (JStr (isoformat t)) d))
  | _ => raise {| exn_class_of := TypeError;
                  str_of_exn := "object does not support item assignment" |}
  end.

Definition create_conversation (E : env) (title : option string)
  : M world string :=
  t <- datetime_now E ;
  let conversation_id := strftime_id t in
  title <- match title with
           | Some s =>
               if truthy s then ret s
               else t <- datetime_now E ; ret ("Chat " ++ strftime_title t)
           | None => t <- datetime_now E ; ret ("Chat " ++ strftime_title t)
           end ;
  created <- datetime_now E ;
  updated <- datetime_now E ;
  let conversation_data :=
    JDict [("id", JStr conversation_id);
           ("title", JStr title);
           ("created_at", JStr (isoformat created));
           ("updated_at", JStr (isoformat updated));
           ("messages", JList [])] in
  save_conversation E conversation_id conversation_data >>
  ret conversation_id.

(** Returns [JNull] for Python's [None]. *)
Definition load_conversation (conversation_id : string) : M world json :=
  f <- read_file (file_path conversation_id) ;
  match f with
  | None => ret JNull
  | Some (Document v) => ret v
  | Some Malformed => ret JNull
  end.

Definition add_message (E : env) (conversation_id role content : string)
    (metadata : option (list (string * json))) : M world bool :=
  conversation <- load_conversation conversation_id ;
  if negb (json_truthy conversation) then ret false
  else
    t <- datetime_now E ;
    let message :=
      JDict [("role", JStr role);
             ("content", JStr content);
             ("timestamp", JStr (isoformat t));
             ("metadata", JDict (match metadata with
                                 | Some (_ :: _ as d) => d
                                 | _ => []
                                 end))] in
    messages <- getitem conversation "messages" ;
    match messages, conversation with
    | JList l, JDict d =>
        save_conversation E conversation_id
          (JDict (dict_set "messages" (JList (l ++ [message])) d)) >>
        ret true
    | _, _ => raise {| exn_class_of := AttributeError;
                       str_of_exn := "object has no attribute 'append'" |}
    end.

Definition delete_conversation (conversation_id : string) : M world bool :=
  f <- read_file (file_path conversation_id) ;
  match f with
  | Some _ => unlink (file_path conversation_id) >> ret true
  | None => ret false
  end.

End ChatManager.

(** ** Vocabulary of the specification: the completion client *)
Module ClientSpec.

Import LLMService.

(** A message of spaces only (the empty message included). *)
Fixpoint whitespace_only (s : string) : bool :=
  match s with
  | EmptyString => true
  | String c s' => isspace c && whitespace_only s'
  end.

(** A message that passes the two checks of [send_message]. *)
Definition passes_validation (message : string) : Prop :=
  whitespace_only message = false /\
  (len message <= Config.MAX_MESSAGE_LENGTH)%Z.

(** The failures the specification calls transient: a rate limit, an API
    error other than an authentication failure, any other exception. *)
Definition transient (e : exn) : bool :=
  isinstance e RateLimitError
  || isinstance e APIError && negb (isinstance e AuthenticationError)
  || isinstance e Exception && negb (isinstance e APIError).

(** The cost formula in the words of the specification:
    estimated_tokens = character_count / 4 and
    cost = (estimated_tokens / 1000) x cost-per-1000-tokens. *)
Definition spec_cost (character_count : Z) (cost_per_1000_tokens : float)
  : float :=
  let estimated_tokens := fdiv (float_of_int character_count) (float_of_int 4) in
  fmul (fdiv estimated_tokens (float_of_int 1000)) cost_per_1000_tokens.

(** The requests sent between two worlds, newest first. *)
Definition requests_sent (before after : world) : list request :=
  take (calls_made before after) (calls after).

(** A world in which nothing has happened yet. *)
Definition fresh : world :=
  {| calls := []; clock_reads := 0; sleeps := []; logged := [] |}.

(** A clock that advances one second per reading. *)
Definition seconds (k : nat) : float := float_of_int (Z.of_nat k).

(** An endpoint that rejects the API key on every call. *)
Definition rejects_key : env :=
  {| create := fun _ _ =>
       Fails {| exn_class_of := AuthenticationError;
                str_of_exn := "Error code: 401" |};
     time_time := seconds |}.

(** An endpoint that is rate limited on every call. *)
Definition rate_limited : env :=
  {| create := fun _ _ =>
       Fails {| exn_class_of := RateLimitError;
                str_of_exn := "Error code: 429" |};
     time_time := seconds |}.

(** An endpoint that answers every call. *)
Definition answers : env :=
  {| create := fun _ _ =>
       Responds
         {| choices := [{| message := Some {| message_content := Some "Hello!" |} |}];
            usage := Some {| total_tokens := 12 |} |};
     time_time := seconds |}.

End ClientSpec.

(** ** Vocabulary of the specification: the conversation store *)
Module StoreSpec.

Import Datetime ChatManager.

(** [updated_at >= created_at] on a stored record, as Python compares the
    two ISO 8601 strings. *)
Definition stamps_ordered (record : json) : bool :=
  match field "created_at" record, field "updated_at" record with
  | Some (JStr created), Some (JStr updated) => String.leb created updated
  | _, _ => false
  end.

(** The invariant of the data model, on every record of the store. *)
Definition updated_not_before_created (w : world) : Prop :=
  forall path record,
    fs w !! path = Some (Document record) -> stamps_ordered record = true.

(** A clock that never goes back and reads proper dates. *)
Definition monotone (E : env) : Prop :=
  forall i j, i <= j -> leb (now E i) (now E j) = true.

Definition well_formed (E : env) : Prop := forall i, valid (now E i).

(** The operations of [ChatManager] that write to the store. *)
Inductive operation :=
  | Create (title : option string)
  | Save (conversation_id : string) (conversation_data : json)
  | AddMessage (conversation_id role content : string)
      (metadata : option (list (string * json)))
  | Delete (conversation_id : string).

Definition step (E : env) (o : operation) (w : world) : world :=
  match o with
  | Create title => snd (create_conversation E title w)
  | Save conversation_id conversation_data =>
      snd (save_conversation E conversation_id conversation_data w)
  | AddMessage conversation_id role content metadata =>
      snd (add_message E conversation_id role content metadata w)
  | Delete conversation_id => snd (delete_conversation conversation_id w)
  end.

Fixpoint run (E : env) (ops : list operation) (w : world) : world :=
  match ops with
  | [] => w
  | o :: ops' => run E ops' (step E o w)
  end.

(** A direct [save_conversation] is given a record whose [created_at] is
    not later than the time of the call. *)
Definition admissible (E : env) (w : world) (o : operation) : Prop :=
  match o with
  | Save _ conversation_data =>
      exists created,
        field "created_at" conversation_data = Some (JStr created) /\
        String.leb created (isoformat (now E (clock w))) = true
  | _ => True
  end.

Fixpoint all_admissible (E : env) (ops : list operation) (w : world) : Prop :=
  match ops with
  | [] => True
  | o :: ops' => admissible E w o /\ all_admissible E ops' (step E o w)
  end.

(** A record that carries a creation stamp and, as update stamp, one of
    the first [n] readings of the clock, the former not later than the
    latter. *)
Definition record_stamped (E : env) (n : nat) (record : json) : Prop :=
  exists created k,
    field "created_at" record = Some (JStr created) /\
    field "updated_at" record = Some (JStr (isoformat (now E k))) /\
    k < n /\
    String.leb created (isoformat (now E k)) = true.

Definition stamped (E : env) (w : world) : Prop :=
  forall path record,
    fs w !! path = Some (Document record) -> record_stamped E (clock w) record.

(** The title of a new conversation: the one given, or the generated one
    when none or an empty one is given. *)
Definition generated_title (E : env) (w : world) : string :=
  "Chat " ++ strftime_title (now E (S (clock w))).

Definition expected_title (E : env) (w : world) (title : option string)
  : string :=
  match title with
  | Some (String c s) => String c s
  | _ => generated_title E w
  end.

(** An empty storage directory. *)
Definition empty_store : world := {| fs := ∅; clock := 0 |}.

(** A clock that starts on 9 March 2024, 14:05:07 and advances by one
    microsecond per reading, up to the end of that second. *)
Definition ticking : env :=
  {| now := fun k =>
       {| year := 2024; month := 3; day := 9;
          hour := 14; minute := 5; second := 7;
          microsecond := Z.min (Z.of_nat k) 999999 |} |}.

(** A record stamped with a creation time that is still to come. *)
Definition from_the_future : json :=
  JDict [("id", JStr "x");
         ("title", JStr "Plans");
         ("created_at", JStr "2999-01-01T00:00:00");
         ("updated_at", JStr "2999-01-01T00:00:00");
         ("messages", JList [])].

End StoreSpec.

(** ** More vocabulary: runs of the completion client *)
Module ClientRuns.

Import LLMService ClientSpec.

(** The result of an attempt that got a response, lines 114-130. *)
Definition completed (message model : string) (r : response)
    (response_time : float) : result :=
  match choices r with
  | {| message := Some m |} :: _ =>
      Success (message_content m) response_time model
        (match usage r with
         | Some u => Some (total_tokens u)
         | None => None
         end)
        (estimate_cost message model)
  | _ => Failure "Empty response from API" (PyFloat response_time)
  end.

(** The [time.sleep] arguments between two worlds, newest first. *)
Definition sleeps_made (before after : world) : list Z :=
  take (length (sleeps after) - length (sleeps before)) (sleeps after).

(** The text of the two handlers that can end a call. *)
Definition handler_text (e : exn) : string :=
  (if isinstance e APIError then "API Error: " else "Unexpected error: ")
  ++ str_of_exn e.

(** An endpoint that times out [failures] times and then answers. *)
Definition recovers_after (failures : nat) : env :=
  {| create := fun k _ =>
       if (k <? failures)%nat then
         Fails {| exn_class_of := APITimeoutError;
                  str_of_exn := "Request timed out." |}
       else
         Responds
           {| choices := [{| message := Some {| message_content := Some "Hello!" |} |}];
              usage := Some {| total_tokens := 12 |} |};
     time_time := seconds |}.

(** An endpoint that answers with no choice at all. *)
Definition silent : env :=
  {| create := fun _ _ => Responds {| choices := []; usage := None |};
     time_time := seconds |}.

(** A user who presses Ctrl-C during the first call. *)
Definition interrupted : env :=
  {| create := fun _ _ =>
       Fails {| exn_class_of := KeyboardInterrupt; str_of_exn := "" |};
     time_time := seconds |}.

End ClientRuns.

(** ** config.py and the constructor of [LLMService] *)
Module Startup.

Import LLMService.

(** [Config.validate_config], for the value of [OPENAI_API_KEY] that
    [os.getenv] gave. *)
Definition validate_config (OPENAI_API_KEY : option string) : bool :=
  match OPENAI_API_KEY with
  | Some key => if negb (truthy key) then false else true
  | None => false
  end.

(** [Config.get_missing_config]. *)
Definition get_missing_config (OPENAI_API_KEY : option string) : list string :=
  (match OPENAI_API_KEY with
   | Some key => if negb (truthy key) then ["OPENAI_API_KEY"] else []
   | None => ["OPENAI_API_KEY"]
   end)%list.

(** [sep.join(items)]. *)
Definition join (sep : string) (items : list string) : string :=
  String.concat sep items.

(** How [LLMService.__init__] ends: with a service that holds the key and
    the capability table, or with a [ValueError]. *)
Inductive started :=
  | Service (api_key : option string) (models : gmap string model_info)
  | ValueError (message : string).

(** [LLMService.__init__], lines 10-42. *)
Definition init (OPENAI_API_KEY : option string) : started :=
  if negb (validate_config OPENAI_API_KEY) then
    let missing := get_missing_config OPENAI_API_KEY in
    ValueError ("Missing required configuration: " ++ join ", " missing)
  else Service OPENAI_API_KEY models.

End Startup.

(** ** chat_manager.py: the list of conversations *)
Module Listing.

Import Datetime ChatManager.

(** One entry of the list that [get_all_conversations] returns. *)
Record summary := {
  summary_id : json;
  summary_title : json;
  summary_created_at : json;
  summary_updated_at : json;
  message_count : Z
}.

(** [len(v)]; [None] where Python raises [TypeError]. *)
Definition json_len (v : json) : option Z :=
  match v with
  | JStr s => Some (len s)
  | JList l => Some (Z.of_nat (length l))
  | JDict d => Some (Z.of_nat (length d))
  | _ => None
  end.

(** The body of the [try], lines 57-65, on the loaded document; [None]
    where an exception is raised and the file is skipped. *)
Definition summarize (data : json) : option summary :=
  match data with
  | JDict d =>
      match dict_get "id" d, dict_get "title" d,
            dict_get "created_at" d, dict_get "updated_at" d with
      | Some i, Some t, Some c, Some u =>
          match json_len (match dict_get "messages" d with
                          | Some messages => messages
                          | None => JList []
                          end) with
          | Some n =>
              Some {| summary_id := i; summary_title := t;
                      summary_created_at := c; summary_updated_at := u;
                      message_count := n |}
          | None => None
          end
      | _, _, _, _ => None
      end
  | _ => None
  end.

(** One file of the directory, opened and loaded; a name that cannot be
    opened and a document that [json.load] rejects are skipped too. *)
Definition summarize_file (f : option file) : option summary :=
  match f with
  | Some (Document data) => summarize data
  | _ => None
  end.

(** The loop of lines 55-67 over the names that [glob] yields, in the
    order in which it yields them. *)
Fixpoint summaries (files : gmap string file) (names : list string)
  : list summary :=
  match names with
  | [] => []
  | name :: names' =>
      match summarize_file (files !! name) with
      | Some s => s :: summaries files names'
      | None => summaries files names'
      end
  end.

(** The sort key, when it is a string. *)
Definition updated_string (s : summary) : string :=
  match summary_updated_at s with
  | JStr u => u
  | _ => ""
  end.

Definition has_string_key (s : summary) : bool :=
  match summary_updated_at s with
  | JStr _ => true
  | _ => false
  end.

(** [list.sort(key=..., reverse=True)] on string keys: descending, and
    stable, so that of two entries with the same key the one that came
    first stays first. *)
Fixpoint insert_descending (x : summary) (sorted : list summary)
  : list summary :=
  match sorted with
  | [] => [x]
  | y :: sorted' =>
      if String.ltb (updated_string x) (updated_string y)
      then y :: insert_descending x sorted'
      else x :: sorted
  end.

Fixpoint sort_descending (l : list summary) : list summary :=
  match l with
  | [] => []
  | x :: l' => insert_descending x (sort_descending l')
  end.

(** What [get_all_conversations] returns.  With two entries or more of
    which one has an [updated_at] that is not a string, the outcome depends
    on the comparisons that [list.sort] happens to make (an order of numbers,
    or a [TypeError]); that case is left out of the model. *)
Inductive listing :=
  | Listed (conversations : list summary)
  | OtherKeys.

Definition get_all_conversations (names : list string) : M world listing :=
  fun w =>
    let conversations := summaries (fs w) names in
    match conversations with
    | [] | [_] => (Return (Listed conversations), w)
    | _ =>
        if forallb has_string_key conversations
        then (Return (Listed (sort_descending conversations)), w)
        else (Return OtherKeys, w)
    end.

(** The order of the list: each entry was updated no earlier than the
    next one. *)
Fixpoint newest_first (l : list summary) : Prop :=
  match l with
  | [] => True
  | a :: l' =>
      Forall (fun b => String.leb (updated_string b) (updated_string a) = true) l'
      /\ newest_first l'
  end.

End Listing.

(** ** More vocabulary: runs of the conversation store *)
Module StoreRuns.

Import Datetime ChatManager.

(** [add_message] for each (role, content) of a list, in order, without
    metadata; the world after the last one. *)
Fixpoint post_all (E : env) (conversation_id : string)
    (turns : list (string * string)) (w : world) : world :=
  match turns with
  | [] => w
  | (role, content) :: turns' =>
      post_all E conversation_id turns'
        (snd (add_message E conversation_id role content None w))
  end.

(** The role and the content of a stored message. *)
Definition turn_of (message : json) : option (string * string) :=
  match field "role" message, field "content" message with
  | Some (JStr role), Some (JStr content) => Some (role, content)
  | _, _ => None
  end.

(** The fields of a date that the id of a conversation shows. *)
Definition to_the_second (t : datetime) : list Z :=
  [year t; month t; day t; hour t; minute t; second t].

(** Every stored record has a string under [updated_at]. *)
Definition string_stamps (w : world) : Prop :=
  forall path v,
    fs w !! path = Some (Document v) ->
    exists u, field "updated_at" v = Some (JStr u).

(** A storage directory with two conversations and a file that is not
    one. *)
Definition two_chats : world :=
  {| fs :=
       {[ "a.json" :=
            Document (JDict [("id", JStr "a"); ("title", JStr "First");
                             ("created_at", JStr "2024-03-01T09:00:00");
                             ("updated_at", JStr "2024-03-01T09:30:00");
                             ("messages", JList [JDict []; JDict []])]);
          "b.json" :=
            Document (JDict [("id", JStr "b"); ("title", JStr "Second");
                             ("created_at", JStr "2024-03-02T09:00:00");
                             ("updated_at", JStr "2024-03-02T09:30:00");
                             ("messages", JList [])]);
          "c.json" := Malformed ]};
     clock := 0 |}.

End StoreRuns.

(** ** chat_sidebar.py and model_selector.py *)
Module ChatSidebar.

Import Datetime ChatManager.

(** [st.session_state] and the storage directory. *)
Record app := {
  session_state : gmap string json;
  store : world
}.

Definition lift {A} (c : M world A) : M app A :=
  fun a =>
    match c (store a) with
    | (o, w) => (o, {| session_state := session_state a; store := w |})
    end.

Definition set_session (key : string) (v : json) : M app unit :=
  fun a =>
    (Return tt,
     {| session_state := <[key := v]> (session_state a); store := store a |}).

(** [get_or_create_conversation], lines 56-63. *)
Definition get_or_create_conversation (E : env) : M app json :=
  fun a =>
    match session_state a !! "current_conversation_id" with
    | Some current =>
        if negb (json_truthy current) then
          (conversation_id <- lift (create_conversation E None) ;
           set_session "current_conversation_id" (JStr conversation_id) >>
           ret (JStr conversation_id)) a
        else (Return current, a)
    | None =>
        (conversation_id <- lift (create_conversation E None) ;
         set_session "current_conversation_id" (JStr conversation_id) >>
         ret (JStr conversation_id)) a
    end.

(** The label of a conversation button, line 31. *)
Definition title_display (title : string) : string :=
  if (len title >? 25)%Z then substring 0 25 title ++ "..." else title.

(** The system prompt that [render_model_selector] returns for the text of
    the text area, lines 76-78. *)
Definition selected_system_prompt (text : string) : option string :=
  if truthy (strip text) then Some text else None.

End ChatSidebar.

(** ** The completion client *)
Module ClientFacts.

Import LLMService ClientSpec.

(** *** Facts about the Python fragments *)

Lemma lstrip_whitespace_only s : whitespace_only s = true -> lstrip s = "".
Proof.
  induction s as [|c s IH]; simpl; [reflexivity|].
  intros [Hc Hs]%andb_true_iff. rewrite Hc. auto.
Qed.

Lemma strip_whitespace_only s : whitespace_only s = true -> strip s = "".
Proof. intros H. unfold strip. rewrite lstrip_whitespace_only; auto. Qed.

Lemma lstrip_first_char s :
  whitespace_only s = false ->
  exists c s', lstrip s = String c s' /\ isspace c = false.
Proof.
  induction s as [|c s IH]; simpl; [discriminate|].
  destruct (isspace c) eqn:Hc; simpl; eauto.
Qed.

Lemma rstrip_keeps_nonspace c s :
  isspace c = false -> truthy (rstrip (String c s)) = true.
Proof. intros Hc. simpl. rewrite Hc. destruct (rstrip s); reflexivity. Qed.

Lemma strip_truthy s : whitespace_only s = false -> truthy (strip s) = true.
Proof.
  intros H. destruct (lstrip_first_char s H) as (c & s' & Hl & Hc).
  unfold strip. rewrite Hl. apply rstrip_keeps_nonspace, Hc.
Qed.

Lemma truthy_not_whitespace_only s : whitespace_only s = false -> truthy s = true.
Proof. destruct s; [discriminate | reflexivity]. Qed.

(** The first check of [send_message] rejects exactly the messages made of
    spaces. *)
Lemma empty_check_spec s :
  negb (truthy s) || negb (truthy (strip s)) = whitespace_only s.
Proof.
  destruct (whitespace_only s) eqn:H.
  - rewrite (strip_whitespace_only s H). simpl. apply orb_true_r.
  - rewrite (strip_truthy s H), (truthy_not_whitespace_only s H). reflexivity.
Qed.


(** Every authentication failure and every rate limit is an [APIError]. *)
Lemma authentication_error_is_api_error e :
  isinstance e AuthenticationError = true -> isinstance e APIError = true.
Proof. destruct e as [[] msg]; vm_compute; congruence. Qed.

Lemma rate_limit_error_is_api_error e :
  isinstance e RateLimitError = true -> isinstance e APIError = true.
Proof. destruct e as [[] msg]; vm_compute; congruence. Qed.

Lemma api_error_is_exception e :
  isinstance e APIError = true -> isinstance e Exception = true.
Proof. destruct e as [[] msg]; vm_compute; congruence. Qed.

Lemma transient_is_exception e : transient e = true -> isinstance e Exception = true.
Proof. destruct e as [[] msg]; vm_compute; congruence. Qed.

Lemma repeat_app_cons {A} (x : A) n l : (repeat x n ++ x :: l = x :: repeat x n ++ l)%list.
Proof. induction n as [|n IH]; simpl; [reflexivity|]. rewrite IH. reflexivity. Qed.

(** *** Facts about [send_message] *)

Lemma resolve_model_known model : is_Some (models !! resolve_model model).
Proof.
  unfold resolve_model. destruct (models !! model) eqn:H.
  - rewrite H. eauto.
  - vm_compute. eauto.
Qed.

Lemma resolve_model_unknown model :
  models !! model = None -> resolve_model model = "gpt-3.5-turbo".
Proof. intros H. unfold resolve_model. rewrite H. reflexivity. Qed.

Section Attempts.

Variable E : env.
Variables message model : string.
Variable messages : list turn.
Variable max_tokens : Z.
Variable temperature : float.
Variable start_time : float.
Variable info : model_info.
Hypothesis model_known : models !! model = Some info.

Let req : request :=
  completion_request model messages max_tokens temperature info.

(** One attempt sends one request. *)
Lemma attempt_body_calls w :
  calls (snd (attempt_body E message model messages max_tokens temperature
                start_time w)) = req :: calls w.
Proof.
  unfold attempt_body, models_getitem, bind, completions_create.
  rewrite model_known. cbn.
  destruct (create E (length (calls w)) _) as [r|e]; cbn; [|reflexivity].
  destruct (choices r) as [|[[m|]] ?]; reflexivity.
Qed.

Lemma attempt_body_fails w e :
  create E (length (calls w)) req = Fails e ->
  attempt_body E message model messages max_tokens temperature start_time w
  = (Raise e, with_call req w).
Proof.
  intros H. unfold attempt_body, models_getitem, bind, completions_create.
  rewrite model_known. cbn. fold req. rewrite H. reflexivity.
Qed.

(** No handler sends a request. *)
Lemma attempt_handlers_calls attempt e w :
  calls (snd (attempt_handlers E attempt start_time e w)) = calls w.
Proof.
  unfold attempt_handlers, bind, logger_error, sleep, time, ret, raise.
  repeat (match goal with |- context [if ?b then _ else _] => destruct b end;
          cbn; try reflexivity).
Qed.

(** A handled exception ends the call on the last attempt and goes on to the
    next attempt otherwise. *)
Lemma attempt_handlers_exception attempt e w :
  isinstance e Exception = true ->
  exists w',
    calls w' = calls w /\
    attempt_handlers E attempt start_time e w
    = (Return
         (if (attempt =? Config.MAX_RETRIES - 1)%Z then
            Returned
              (Failure
                 ((if isinstance e APIError then "API Error: "
                   else "Unexpected error: ") ++ str_of_exn e)
                 (PyFloat (fsub (time_time E (clock_reads w)) start_time)))
          else Continue), w').
Proof.
  intros Hexn. unfold attempt_handlers.
  destruct (isinstance e APIError) eqn:Hapi.
  - unfold bind, logger_error, sleep, time, ret.
    destruct (attempt =? _)%Z; cbn; eexists; (split; [|reflexivity]);
      reflexivity.
  - destruct (isinstance e RateLimitError) eqn:Hrate.
    { apply rate_limit_error_is_api_error in Hrate. congruence. }
    destruct (isinstance e AuthenticationError) eqn:Hauth.
    { apply authentication_error_is_api_error in Hauth. congruence. }
    rewrite Hexn. unfold bind, logger_error, sleep, time, ret.
    destruct (attempt =? _)%Z; cbn; eexists; (split; [|reflexivity]);
      reflexivity.
Qed.

(** The loop sends the same request once per attempt it starts, and starts
    at least one when it has any left. *)
Lemma retry_loop_calls remaining : forall attempt w,
  exists n,
    n <= remaining /\ (0 < remaining -> 0 < n) /\
    calls (snd (retry_loop E message model messages max_tokens temperature
                  start_time remaining attempt w))
    = (repeat req n ++ calls w)%list.
Proof.
  induction remaining as [|k IH]; intros attempt w.
  - exists 0. repeat split; [lia | lia].
  - cbn [retry_loop]. unfold bind at 1, try_except.
    pose proof (attempt_body_calls w) as Hbody.
    destruct (attempt_body _ _ _ _ _ _ _ w) as [[f|e] w1]; cbn in Hbody.
    + destruct f as [r|].
      * exists 1. cbn. rewrite Hbody. repeat split; lia.
      * destruct (IH (attempt + 1)%Z w1) as (n & Hle & _ & Hn).
        exists (S n). rewrite Hn, Hbody, repeat_app_cons.
        repeat split; lia.
    + pose proof (attempt_handlers_calls attempt e w1) as Hhandle.
      destruct (attempt_handlers _ _ _ e w1) as [[f|e'] w2]; cbn in Hhandle.
      * destruct f as [r|].
        -- exists 1. cbn. rewrite Hhandle, Hbody. repeat split; lia.
        -- destruct (IH (attempt + 1)%Z w2) as (n & Hle & _ & Hn).
           exists (S n). rewrite Hn, Hhandle, Hbody, repeat_app_cons.
           repeat split; lia.
      * exists 1. cbn. rewrite Hhandle, Hbody. repeat split; lia.
Qed.

(** When every call raises a handled exception the loop runs to its last
    attempt and reports the last exception. *)
Lemma retry_loop_all_fail remaining : forall attempt w,
  (forall k, exists e, create E k req = Fails e /\ isinstance e Exception = true) ->
  0 < remaining ->
  (Z.of_nat remaining + attempt = Config.MAX_RETRIES)%Z ->
  exists e t w',
    isinstance e Exception = true /\
    create E (length (calls w) + remaining - 1) req = Fails e /\
    retry_loop E message model messages max_tokens temperature start_time
      remaining attempt w
    = (Return (Some (Failure
                       ((if isinstance e APIError then "API Error: "
                         else "Unexpected error: ") ++ str_of_exn e)
                       (PyFloat t))), w') /\
    calls w' = (repeat req remaining ++ calls w)%list.
Proof.
  induction remaining as [|k IH]; intros attempt w Hfail Hpos Hsum; [lia|].
  cbn [retry_loop]. unfold bind at 1, try_except.
  destruct (Hfail (length (calls w))) as (e & He & Hexn).
  rewrite (attempt_body_fails w e He).
  destruct (attempt_handlers_exception attempt e (with_call req w) Hexn)
    as (w1 & Hcalls & ->).
  destruct (attempt =? Config.MAX_RETRIES - 1)%Z eqn:Hlast.
  - assert (k = 0) as -> by (apply Z.eqb_eq in Hlast; lia).
    exists e, (fsub (time_time E (clock_reads (with_call req w))) start_time), w1.
    repeat split; auto.
    replace (length (calls w) + 1 - 1) with (length (calls w)) by lia. exact He.
  - apply Z.eqb_neq in Hlast.
    destruct (IH (attempt + 1)%Z w1 Hfail) as (e' & t & w' & Hexn' & He' & Hrun & Hw');
      [lia | lia |].
    exists e', t, w'. rewrite Hcalls in *. cbn [calls with_call] in *.
    repeat split; auto.
    + replace (length (calls w) + S k - 1) with (S (length (calls w)) + k - 1) by lia.
      exact He'.
    + rewrite Hw', repeat_app_cons. reflexivity.
Qed.

End Attempts.

Lemma send_message_valid E message model temperature max_tokens system_prompt w :
  passes_validation message ->
  send_message E message model temperature max_tokens system_prompt w
  = retry_loop E message (resolve_model model)
      (prepare_messages message system_prompt) max_tokens temperature
      (time_time E (clock_reads w)) 3 0 (with_clock_read w).
Proof.
  intros [Hspace Hlen]. unfold send_message.
  rewrite empty_check_spec, Hspace.
  rewrite Z.gtb_ltb. apply Z.ltb_ge in Hlen. rewrite Hlen. reflexivity.
Qed.

Lemma send_message_invalid E message model temperature max_tokens system_prompt w :
  whitespace_only message = true \/ (len message > Config.MAX_MESSAGE_LENGTH)%Z ->
  exists err,
    send_message E message model temperature max_tokens system_prompt w
    = (Return (Some (Failure err (PyInt 0))), w).
Proof.
  intros H. unfold send_message. rewrite empty_check_spec.
  destruct (whitespace_only message) eqn:Hspace; [eexists; reflexivity|].
  destruct H as [H|H]; [discriminate|].
  rewrite Z.gtb_ltb. apply Z.gt_lt, Z.ltb_lt in H. rewrite H.
  eexists; reflexivity.
Qed.

Lemma requests_sent_app before after (new : list request) :
  calls after = (new ++ calls before)%list -> requests_sent before after = new.
Proof.
  intros H. unfold requests_sent, calls_made. rewrite H, length_app.
  replace (length new + length (calls before) - length (calls before))
    with (length new) by lia.
  apply take_app_length.
Qed.

(** Every request of one call of [send_message] is the same one, built from
    the resolved model and the clamped settings; there are at most three. *)
Lemma send_message_requests E message model temperature max_tokens system_prompt w :
  exists n info,
    n <= 3 /\
    models !! resolve_model model = Some info /\
    requests_sent w
      (snd (send_message E message model temperature max_tokens system_prompt w))
    = repeat (completion_request (resolve_model model)
                (prepare_messages message system_prompt) max_tokens
                temperature info) n.
Proof.
  destruct (resolve_model_known model) as [info Hinfo].
  unfold send_message.
  destruct (negb (truthy message) || negb (truthy (strip message))).
  { exists 0, info. repeat split; [lia | auto |]. apply requests_sent_app. reflexivity. }
  destruct (len message >? Config.MAX_MESSAGE_LENGTH)%Z.
  { exists 0, info. repeat split; [lia | auto |]. apply requests_sent_app. reflexivity. }
  unfold bind at 1, time.
  destruct (retry_loop_calls E message (resolve_model model)
              (prepare_messages message system_prompt) max_tokens temperature
              (time_time E (clock_reads w)) info Hinfo 3 0%Z (with_clock_read w))
    as (n & Hle & _ & Hcalls).
  exists n, info. repeat split; auto. apply requests_sent_app. exact Hcalls.
Qed.



Lemma retry_loop_step E message model messages max_tokens temperature start_time
    remaining attempt :
  retry_loop E message model messages max_tokens temperature start_time
    (S remaining) attempt
  = (f <- try_except
            (attempt_body E message model messages max_tokens temperature
               start_time)
            (attempt_handlers E attempt start_time) ;
     match f with
     | Returned r => ret (Some r)
     | Continue =>
         retry_loop E message model messages max_tokens temperature
           start_time remaining (attempt + 1)
     end).
Proof. reflexivity. Qed.

(** The clause for [AuthenticationError] comes after the clause for its
    base class [APIError]: no exception reaches it, and no result carries
    its message. *)
Lemma authentication_clause_unreachable E attempt start_time e w r w' :
  attempt_handlers E attempt start_time e w = (Return (Returned r), w') ->
  error r <> Some "Invalid API key. Please check your configuration.".
Proof.
  unfold attempt_handlers, bind, logger_error, sleep, time, ret, raise.
  destruct (isinstance e APIError) eqn:Hapi.
  - destruct (attempt =? _)%Z; cbn; intros [= <- <-]; discriminate.
  - destruct (isinstance e RateLimitError) eqn:Hrate.
    { apply rate_limit_error_is_api_error in Hrate. congruence. }
    destruct (isinstance e AuthenticationError) eqn:Hauth.
    { apply authentication_error_is_api_error in Hauth. congruence. }
    destruct (isinstance e Exception); [|discriminate].
    destruct (attempt =? _)%Z; cbn; intros [= <- <-]; discriminate.
Qed.

(** *** The claims on the completion client *)

(** C1 (the code departs from the claim).  An authentication failure is an
    [APIError], so the first [except] clause takes it: when the first attempt
    of a validated call raises one, [send_message] logs it, sleeps and calls
    the endpoint again; more than one remote call is made. *)
Theorem authentication_failure_is_retried
    E message model temperature max_tokens system_prompt w e :
  passes_validation message ->
  isinstance e AuthenticationError = true ->
  (forall req, create E (length (calls w)) req = Fails e) ->
  1 < calls_made w
        (snd (send_message E message model temperature max_tokens
                system_prompt w)).
Proof.
  intros Hvalid Hauth Hfirst. rewrite (send_message_valid _ _ _ _ _ _ _ Hvalid).
  destruct (resolve_model_known model) as [info Hinfo].
  set (req := completion_request (resolve_model model)
                (prepare_messages message system_prompt) max_tokens
                temperature info).
  rewrite retry_loop_step. unfold bind at 1, try_except.
  rewrite (attempt_body_fails _ _ _ _ _ _ _ info Hinfo (with_clock_read w) e
             (Hfirst _)).
  fold req.
  destruct (attempt_handlers_exception E (time_time E (clock_reads w)) 0%Z e
              (with_call req (with_clock_read w))) as (w1 & Hcalls & ->).
  { apply api_error_is_exception, authentication_error_is_api_error, Hauth. }
  change (0 =? Config.MAX_RETRIES - 1)%Z with false. cbv beta iota.
  destruct (retry_loop_calls E message (resolve_model model)
              (prepare_messages message system_prompt) max_tokens temperature
              (time_time E (clock_reads w)) info Hinfo 2 (0 + 1)%Z w1)
    as (n & _ & Hpos & Hn).
  unfold calls_made. rewrite Hn, Hcalls. cbn [calls with_call with_clock_read].
  rewrite length_app, repeat_length. cbn [length].
  specialize (Hpos ltac:(lia)). lia.
Qed.

Lemma authentication_failure_is_retried_witness :
  passes_validation "Hello" /\
  1 < calls_made fresh
        (snd (send_message rejects_key "Hello" "gpt-4" (float_literal 7 1)
                1000 None fresh)).
Proof.
  assert (passes_validation "Hello") as Hvalid
    by (split; [reflexivity | vm_compute; discriminate]).
  split; [exact Hvalid|].
  apply (authentication_failure_is_retried rejects_key "Hello" "gpt-4"
           (float_literal 7 1) 1000 None fresh
           {| exn_class_of := AuthenticationError;
              str_of_exn := "Error code: 401" |} Hvalid).
  - reflexivity.
  - intros req. reflexivity.
Defined.

(** With a key that the endpoint always rejects the default budget is
    spent: three calls, two sleeps of one second, and the message of the
    generic handler. *)
Example rejected_key_three_calls :
  let '(r, w) := send_message rejects_key "Hello" "gpt-4" (float_literal 7 1)
                   1000 None fresh in
  r = Return (Some (Failure "API Error: Error code: 401"
                      (PyFloat (float_of_int 1)))) /\
  length (calls w) = 3 /\ sleeps w = [1; 1]%Z.
Proof. vm_compute. repeat split. Qed.

(** C2.  When every attempt of a validated call raises a transient failure,
    [send_message] calls the endpoint exactly [MAX_RETRIES] = 3 times and
    returns a failure whose error text is not empty: the text of the last
    exception behind the prefix of the handler that took it. *)
Theorem transient_failures_exhaust_retries
    E message model temperature max_tokens system_prompt w :
  passes_validation message ->
  (forall k req, exists e, create E k req = Fails e /\ transient e = true) ->
  exists e t w',
    transient e = true /\
    send_message E message model temperature max_tokens system_prompt w
    = (Return (Some (Failure
                       ((if isinstance e APIError then "API Error: "
                         else "Unexpected error: ") ++ str_of_exn e)
                       (PyFloat t))), w') /\
    calls_made w w' = Z.to_nat Config.MAX_RETRIES /\
    calls_made w w' = 3 /\
    truthy ((if isinstance e APIError then "API Error: "
             else "Unexpected error: ") ++ str_of_exn e) = true.
Proof.
  intros Hvalid Hfail. rewrite (send_message_valid _ _ _ _ _ _ _ Hvalid).
  destruct (resolve_model_known model) as [info Hinfo].
  destruct (retry_loop_all_fail E message (resolve_model model)
              (prepare_messages message system_prompt) max_tokens temperature
              (time_time E (clock_reads w)) info Hinfo 3 0%Z (with_clock_read w))
    as (e & t & w' & _ & He & Hrun & Hcalls).
  { intros k. destruct (Hfail k (completion_request (resolve_model model)
      (prepare_messages message system_prompt) max_tokens temperature info))
      as (e & He & Ht).
    exists e. split; [exact He | apply transient_is_exception, Ht]. }
  { lia. }
  { reflexivity. }
  destruct (Hfail (length (calls (with_clock_read w)) + 3 - 1)
              (completion_request (resolve_model model)
                 (prepare_messages message system_prompt) max_tokens
                 temperature info)) as (e' & He' & Ht).
  assert (e' = e) as -> by congruence.
  exists e, t, w'. rewrite Hrun.
  assert (calls_made w w' = 3) as Hmade.
  { unfold calls_made. rewrite Hcalls, length_app, repeat_length.
    cbn [calls with_clock_read]. lia. }
  repeat split; auto.
  destruct (isinstance e APIError); reflexivity.
Qed.

Lemma transient_failures_exhaust_retries_witness :
  passes_validation "Hello" /\
  exists e t w',
    transient e = true /\
    send_message rate_limited "Hello" "gpt-4" (float_literal 7 1) 1000 None fresh
    = (Return (Some (Failure
                       ((if isinstance e APIError then "API Error: "
                         else "Unexpected error: ") ++ str_of_exn e)
                       (PyFloat t))), w') /\
    calls_made fresh w' = Z.to_nat Config.MAX_RETRIES /\
    calls_made fresh w' = 3 /\
    truthy ((if isinstance e APIError then "API Error: "
             else "Unexpected error: ") ++ str_of_exn e) = true.
Proof.
  assert (passes_validation "Hello") as Hvalid
    by (split; [reflexivity | vm_compute; discriminate]).
  split; [exact Hvalid|].
  apply (transient_failures_exhaust_retries rate_limited "Hello" "gpt-4"
           (float_literal 7 1) 1000 None fresh Hvalid).
  intros k req. eexists. split; reflexivity.
Defined.

(** C3.  A model id that is not in the capability table is replaced by
    "gpt-3.5-turbo": the call is the call for the default model, with the
    same result and the same effects whatever the endpoint does, and every
    request it sends names the default model. *)
Theorem unknown_model_falls_back_to_default
    E message model temperature max_tokens system_prompt w :
  models !! model = None ->
  send_message E message model temperature max_tokens system_prompt w
  = send_message E message "gpt-3.5-turbo" temperature max_tokens
      system_prompt w /\
  forall req,
    req ∈ requests_sent w
            (snd (send_message E message model temperature max_tokens
                    system_prompt w)) ->
    req_model req = "gpt-3.5-turbo".
Proof.
  intros Hunknown. split.
  - unfold send_message. rewrite (resolve_model_unknown model Hunknown).
    reflexivity.
  - intros req Hin.
    destruct (send_message_requests E message model temperature max_tokens
                system_prompt w) as (n & info & _ & _ & Hsent).
    rewrite Hsent, (resolve_model_unknown model Hunknown) in Hin.
    apply list_elem_of_In, repeat_spec in Hin. subst req. reflexivity.
Qed.

Lemma unknown_model_falls_back_to_default_witness :
  models !! "gpt-5" = None /\
  send_message answers "Hello" "gpt-5" (float_literal 7 1) 1000 None fresh
  = send_message answers "Hello" "gpt-3.5-turbo" (float_literal 7 1) 1000
      None fresh /\
  forall req,
    req ∈ requests_sent fresh
            (snd (send_message answers "Hello" "gpt-5" (float_literal 7 1)
                    1000 None fresh)) ->
    req_model req = "gpt-3.5-turbo".
Proof.
  split; [reflexivity|].
  apply (unknown_model_falls_back_to_default answers "Hello" "gpt-5"
           (float_literal 7 1) 1000 None fresh).
  reflexivity.
Defined.

(** The fallback is silent: on an endpoint that answers, the unknown id
    gets a success that reports the default model as the one used. *)
Example unknown_model_succeeds :
  fst (send_message answers "Hello" "gpt-5" (float_literal 7 1) 1000 None fresh)
  = Return (Some (Success (Some "Hello!") (float_of_int 1) "gpt-3.5-turbo"
                    (Some 12%Z) (estimate_cost "Hello" "gpt-3.5-turbo"))).
Proof. vm_compute. reflexivity. Qed.

(** C4.  A message that is empty or made of spaces only, and a message
    longer than [MAX_MESSAGE_LENGTH] = 4000 characters, is refused at once:
    the result is a failure with [response_time = 0], and the world is
    left as it was, so no remote call is made. *)
Theorem invalid_message_fails_fast
    E message model temperature max_tokens system_prompt w :
  whitespace_only message = true \/ (len message > 4000)%Z ->
  exists err,
    send_message E message model temperature max_tokens system_prompt w
    = (Return (Some (Failure err (PyInt 0))), w) /\
    response_time (Failure err (PyInt 0)) = PyInt 0 /\
    calls_made w
      (snd (send_message E message model temperature max_tokens
              system_prompt w)) = 0.
Proof.
  intros H.
  destruct (send_message_invalid E message model temperature max_tokens
              system_prompt w H) as [err Herr].
  exists err. rewrite Herr. repeat split. unfold calls_made. cbn. lia.
Qed.

Lemma invalid_message_fails_fast_witness :
  (whitespace_only "   " = true \/ (len "   " > 4000)%Z) /\
  exists err,
    send_message answers "   " "gpt-4" (float_literal 7 1) 1000 None fresh
    = (Return (Some (Failure err (PyInt 0))), fresh) /\
    response_time (Failure err (PyInt 0)) = PyInt 0 /\
    calls_made fresh
      (snd (send_message answers "   " "gpt-4" (float_literal 7 1) 1000 None
              fresh)) = 0.
Proof.
  assert (whitespace_only "   " = true \/ (len "   " > 4000)%Z) as H
    by (left; reflexivity).
  split; [exact H|].
  exact (invalid_message_fails_fast answers "   " "gpt-4" (float_literal 7 1)
           1000 None fresh H).
Defined.

(** A message of 4001 characters is refused too, with the text that names
    the limit. *)
Example long_message_rejected :
  send_message answers (String.concat "" (repeat "a" 4001)) "gpt-4"
    (float_literal 7 1) 1000 None fresh
  = (Return (Some (Failure "Message too long. Maximum 4000 characters allowed."
                     (PyInt 0))), fresh).
Proof. vm_compute. reflexivity. Qed.


(** The clamp at work on a validated call: three requests, each with
    temperature 2.0, for a requested 5.0. *)
Example temperature_five_sent_as_two :
  map req_temperature
    (calls (snd (send_message rate_limited "Hello" "gpt-4" (float_of_int 5)
                   1000 None fresh)))
  = [float_of_int 2; float_of_int 2; float_of_int 2].
Proof. vm_compute. reflexivity. Qed.

(** C8.  For a model of the capability table [estimate_cost] is the formula
    of the specification, (len(message) / 4 / 1000) x cost-per-1000-tokens in
    binary64 arithmetic; four characters are one estimated token. *)
Theorem estimate_cost_formula message model info :
  models !! model = Some info ->
  estimate_cost message model = spec_cost (len message) (cost_per_1k info) /\
  estimate_cost "abcd" model
  = fmul (fdiv (float_of_int 1) (float_of_int 1000)) (cost_per_1k info).
Proof.
  intros Hknown. unfold estimate_cost. rewrite Hknown. split; reflexivity.
Qed.

Lemma estimate_cost_formula_witness :
  models !! "gpt-4" = Some {| name := "GPT-4";
                              description := "Most capable model for complex tasks";
                              cost_per_1k := float_literal 3 2;
                              max_tokens := 8192;
                              supports_functions := true |} /\
  estimate_cost "Hello, world" "gpt-4"
  = spec_cost (len "Hello, world") (float_literal 3 2) /\
  estimate_cost "abcd" "gpt-4"
  = fmul (fdiv (float_of_int 1) (float_of_int 1000)) (float_literal 3 2).
Proof.
  split; [reflexivity|].
  apply (estimate_cost_formula "Hello, world" "gpt-4"
           {| name := "GPT-4";
              description := "Most capable model for complex tasks";
              cost_per_1k := float_literal 3 2;
              max_tokens := 8192;
              supports_functions := true |}).
  reflexivity.
Defined.

(** The estimate for four characters with the price of "gpt-4", 0.03 per
    thousand tokens: the binary64 number 8854437155380585 * 2^-68. *)
Example estimate_cost_abcd_gpt4 :
  estimate_cost "abcd" "gpt-4" = S754_finite false 8854437155380585 (-68).
Proof. vm_compute. reflexivity. Qed.



End ClientFacts.

(** ** The conversation store *)
Module StoreFacts.

Import Datetime ChatManager StoreSpec.

(** *** Order of strings and of ISO 8601 stamps *)

Lemma ascii_compare_refl c : Ascii.compare c c = Eq.
Proof. apply N.compare_refl. Qed.

Lemma string_compare_cons c s1 s2 :
  String.compare (String c s1) (String c s2) = String.compare s1 s2.
Proof. simpl. rewrite ascii_compare_refl. reflexivity. Qed.

Lemma string_compare_step c1 c2 s1 s2 :
  String.compare (String c1 s1) (String c2 s2)
  = match Ascii.compare c1 c2 with
    | Eq => String.compare s1 s2
    | ne => ne
    end.
Proof. reflexivity. Qed.

Lemma string_app_cons c s t : String c s ++ t = String c (s ++ t).
Proof. reflexivity. Qed.

Lemma string_compare_sep c s1 s2 :
  String.compare (String c "" ++ s1) (String c "" ++ s2) = String.compare s1 s2.
Proof. apply string_compare_cons. Qed.

Lemma string_app_nil_r s : s ++ "" = s.
Proof.
  induction s as [|c s IH]; [reflexivity|].
  change (String c (s ++ "") = String c s). f_equal. exact IH.
Qed.

Lemma string_leb_trans a : forall b c,
  String.leb a b = true -> String.leb b c = true -> String.leb a c = true.
Proof.
  unfold String.leb.
  induction a as [|x a IH]; intros [|y b] [|z c]; simpl; try easy.
  unfold Ascii.compare.
  destruct (N.compare_spec (N_of_ascii x) (N_of_ascii y)) as [Hxy|Hxy|Hxy];
    try easy;
    destruct (N.compare_spec (N_of_ascii y) (N_of_ascii z)) as [Hyz|Hyz|Hyz];
    try easy;
    destruct (N.compare_spec (N_of_ascii x) (N_of_ascii z)) as [Hxz|Hxz|Hxz];
    try easy; try lia.
  apply IH.
Qed.

Lemma digit_compare x y :
  (0 <= x <= 9)%Z -> (0 <= y <= 9)%Z ->
  Ascii.compare (digit x) (digit y) = (x ?= y)%Z.
Proof.
  intros Hx Hy. unfold Ascii.compare, digit.
  rewrite !N_ascii_embedding by lia.
  rewrite <- N2Z.inj_compare, !N2Z.inj_add, !Z2N.id by lia.
  apply Z.add_compare_mono_l.
Qed.

Lemma digits_compare width : forall x y s1 s2,
  String.compare (digits width x ++ s1) (digits width y ++ s2)
  = match (x mod 10 ^ Z.of_nat width ?= y mod 10 ^ Z.of_nat width)%Z with
    | Eq => String.compare s1 s2
    | c => c
    end.
Proof.
  induction width as [|w IH]; intros x y s1 s2.
  - simpl. rewrite !Z.mod_1_r. reflexivity.
  - cbn [digits]. rewrite !string_app_cons, string_compare_step.
    assert (0 < 10 ^ Z.of_nat w)%Z as Hpow by (apply Z.pow_pos_nonneg; lia).
    pose proof (Z.mod_pos_bound (x / 10 ^ Z.of_nat w) 10 ltac:(lia)) as Hdx.
    pose proof (Z.mod_pos_bound (y / 10 ^ Z.of_nat w) 10 ltac:(lia)) as Hdy.
    pose proof (Z.mod_pos_bound x (10 ^ Z.of_nat w) Hpow) as Hrx.
    pose proof (Z.mod_pos_bound y (10 ^ Z.of_nat w) Hpow) as Hry.
    rewrite digit_compare, IH by lia.
    rewrite Nat2Z.inj_succ, Z.pow_succ_r by lia.
    rewrite (Z.mul_comm 10), !Z.rem_mul_r by lia.
    set (P := (10 ^ Z.of_nat w)%Z) in *.
    set (dx := ((x / P) mod 10)%Z) in *. set (dy := ((y / P) mod 10)%Z) in *.
    set (rx := (x mod P)%Z) in *. set (ry := (y mod P)%Z) in *.
    destruct (Z.compare_spec dx dy) as [Hd|Hd|Hd].
    + subst dy. rewrite <- Hd.
      destruct (Z.compare_spec rx ry) as [Hr|Hr|Hr];
        destruct (Z.compare_spec (rx + P * dx) (ry + P * dx)); (reflexivity || lia).
    + destruct (Z.compare_spec (rx + P * dx) (ry + P * dy)); (reflexivity || nia).
    + destruct (Z.compare_spec (rx + P * dx) (ry + P * dy)); (reflexivity || nia).
Qed.

Lemma digits_compare_small width x y s1 s2 :
  (0 <= x < 10 ^ Z.of_nat width)%Z -> (0 <= y < 10 ^ Z.of_nat width)%Z ->
  String.compare (digits width x ++ s1) (digits width y ++ s2)
  = match (x ?= y)%Z with
    | Eq => String.compare s1 s2
    | c => c
    end.
Proof.
  intros Hx Hy. rewrite digits_compare, !Z.mod_small by assumption. reflexivity.
Qed.

Lemma fraction_compare x y :
  (0 <= x <= 999999)%Z -> (0 <= y <= 999999)%Z ->
  String.compare (if (x =? 0)%Z then "" else "." ++ digits 6 x)
                 (if (y =? 0)%Z then "" else "." ++ digits 6 y)
  = (x ?= y)%Z.
Proof.
  intros Hx Hy.
  destruct (Z.eqb_spec x 0) as [->|Hx0], (Z.eqb_spec y 0) as [->|Hy0].
  - reflexivity.
  - transitivity Lt; [reflexivity|]. symmetry. apply Z.compare_lt_iff. lia.
  - transitivity Gt; [reflexivity|]. symmetry. apply Z.compare_gt_iff. lia.
  - rewrite string_compare_sep.
    rewrite <- (string_app_nil_r (digits 6 x)), <- (string_app_nil_r (digits 6 y)).
    rewrite digits_compare_small by (simpl; lia).
    destruct (x ?= y)%Z; reflexivity.
Qed.

(** On proper dates the ISO 8601 strings are ordered as the dates are. *)
Lemma isoformat_compare a b :
  valid a -> valid b ->
  String.compare (isoformat a) (isoformat b) = compare a b.
Proof.
  destruct a as [y1 m1 d1 h1 mi1 s1 u1], b as [y2 m2 d2 h2 mi2 s2 u2].
  unfold valid, isoformat, compare, fields. cbn [year month day hour minute second microsecond].
  intros Ha Hb. cbn [lex_compare].
  rewrite digits_compare_small by (simpl; lia).
  destruct (y1 ?= y2)%Z; try reflexivity. rewrite string_compare_sep.
  rewrite digits_compare_small by (simpl; lia).
  destruct (m1 ?= m2)%Z; try reflexivity. rewrite string_compare_sep.
  rewrite digits_compare_small by (simpl; lia).
  destruct (d1 ?= d2)%Z; try reflexivity. rewrite string_compare_sep.
  rewrite digits_compare_small by (simpl; lia).
  destruct (h1 ?= h2)%Z; try reflexivity. rewrite string_compare_sep.
  rewrite digits_compare_small by (simpl; lia).
  destruct (mi1 ?= mi2)%Z; try reflexivity. rewrite string_compare_sep.
  rewrite digits_compare_small by (simpl; lia).
  destruct (s1 ?= s2)%Z; try reflexivity.
  rewrite fraction_compare by lia.
  destruct (u1 ?= u2)%Z; reflexivity.
Qed.

Lemma isoformat_leb a b :
  valid a -> valid b -> String.leb (isoformat a) (isoformat b) = leb a b.
Proof.
  intros Ha Hb. unfold String.leb, leb. rewrite isoformat_compare by assumption.
  reflexivity.
Qed.


(** *** Dictionaries *)

Lemma dict_get_set_eq k v d : dict_get k (dict_set k v d) = Some v.
Proof.
  induction d as [|[k' v'] d IH]; simpl.
  - rewrite String.eqb_refl. reflexivity.
  - destruct (String.eqb_spec k k') as [->|Hne]; simpl.
    + rewrite String.eqb_refl. reflexivity.
    + apply String.eqb_neq in Hne. rewrite Hne. exact IH.
Qed.

Lemma dict_get_set_ne k k' v d :
  k <> k' -> dict_get k' (dict_set k v d) = dict_get k' d.
Proof.
  intros Hne. induction d as [|[k0 v0] d IH]; simpl.
  - apply not_eq_sym, String.eqb_neq in Hne. rewrite Hne. reflexivity.
  - destruct (String.eqb_spec k k0) as [->|Hk]; simpl.
    + apply not_eq_sym, String.eqb_neq in Hne. rewrite Hne. reflexivity.
    + rewrite IH. reflexivity.
Qed.

(** *** The operations, one by one *)

Lemma save_conversation_dict E conversation_id d w :
  save_conversation E conversation_id (JDict d) w
  = (Return tt,
     {| fs := <[file_path conversation_id :=
                  Document (JDict (dict_set "updated_at"
                                     (JStr (isoformat (now E (clock w)))) d))]>
                (fs w);
        clock := S (clock w) |}).
Proof. reflexivity. Qed.

(** Anything but a [dict] makes the assignment of [updated_at] raise, after
    the clock was read and before the file is opened. *)
Lemma save_conversation_not_dict E conversation_id data w :
  (forall d, data <> JDict d) ->
  exists e,
    save_conversation E conversation_id data w
    = (Raise e, {| fs := fs w; clock := S (clock w) |}).
Proof.
  intros Hnot. destruct data; try (eexists; reflexivity).
  exfalso. eapply Hnot. reflexivity.
Qed.

Lemma create_conversation_run E title w :
  let conversation_id := strftime_id (now E (clock w)) in
  let created :=
    match title with
    | Some (String _ _) => S (clock w)
    | _ => S (S (clock w))
    end in
  create_conversation E title w
  = (Return conversation_id,
     {| fs := <[file_path conversation_id :=
                  Document
                    (JDict [("id", JStr conversation_id);
                            ("title", JStr (expected_title E w title));
                            ("created_at", JStr (isoformat (now E created)));
                            ("updated_at",
                             JStr (isoformat (now E (S (S created)))));
                            ("messages", JList [])])]> (fs w);
        clock := S (S (S created)) |}).
Proof. destruct title as [[|c s]|]; reflexivity. Qed.

(** What [add_message] does to the store: nothing, or one record written
    back with one more message and a fresh [updated_at]. *)
Lemma add_message_run E conversation_id role content metadata w :
  (fs (snd (add_message E conversation_id role content metadata w)) = fs w /\
   clock w <= clock (snd (add_message E conversation_id role content metadata w)))
  \/
  exists d l message,
    fs w !! file_path conversation_id = Some (Document (JDict d)) /\
    snd (add_message E conversation_id role content metadata w)
    = {| fs := <[file_path conversation_id :=
                   Document
                     (JDict (dict_set "updated_at"
                               (JStr (isoformat (now E (S (clock w)))))
                               (dict_set "messages" (JList (l ++ [message])) d)))]>
                 (fs w);
         clock := S (S (clock w)) |}.
Proof.
  unfold add_message, load_conversation, read_file, bind.
  destruct (fs w !! file_path conversation_id) as [[v|]|] eqn:Hfile; cbn;
    [|left; split; [reflexivity | lia]|left; split; [reflexivity | lia]].
  destruct (json_truthy v); cbn; [|left; split; [reflexivity | lia]].
  destruct v as [| | | | |l|d]; cbn; try (left; split; [reflexivity | lia]).
  destruct (dict_get "messages" d) as [[| | | | |l|d']|]; cbn;
    try (left; split; [reflexivity | lia]).
  right. eexists d, l, _. split; reflexivity.
Qed.

Lemma delete_conversation_run conversation_id w :
  snd (delete_conversation conversation_id w) = w \/
  snd (delete_conversation conversation_id w)
  = {| fs := delete (file_path conversation_id) (fs w); clock := clock w |}.
Proof.
  unfold delete_conversation, read_file, bind. cbn.
  destruct (fs w !! file_path conversation_id); [right|left]; reflexivity.
Qed.

(** *** The stamps of the stored records *)

Lemma record_stamped_later E n n' record :
  n <= n' -> record_stamped E n record -> record_stamped E n' record.
Proof.
  intros Hle (created & k & Hc & Hu & Hk & Hord).
  exists created, k. repeat split; auto. lia.
Qed.

Lemma stamped_same_files E w w' :
  fs w' = fs w -> clock w <= clock w' -> stamped E w -> stamped E w'.
Proof.
  intros Hfs Hclock Hw path record Hfile. rewrite Hfs in Hfile.
  eapply record_stamped_later; [exact Hclock | eauto].
Qed.

Lemma stamped_write E w path record n :
  clock w <= n -> record_stamped E n record -> stamped E w ->
  stamped E {| fs := <[path := Document record]> (fs w); clock := n |}.
Proof.
  intros Hclock Hrecord Hw path' record' Hfile. cbn in *.
  destruct (decide (path = path')) as [->|Hne].
  - rewrite lookup_insert_eq in Hfile. congruence.
  - rewrite lookup_insert_ne in Hfile by assumption.
    eapply record_stamped_later; [exact Hclock | eauto].
Qed.

Lemma stamped_delete E w path :
  stamped E w -> stamped E {| fs := delete path (fs w); clock := clock w |}.
Proof.
  intros Hw path' record Hfile. cbn in *.
  destruct (decide (path = path')) as [->|Hne].
  - rewrite lookup_delete_eq in Hfile. discriminate.
  - rewrite lookup_delete_ne in Hfile by assumption. eauto.
Qed.

Lemma stamps_in_order E i j :
  monotone E -> well_formed E -> i <= j ->
  String.leb (isoformat (now E i)) (isoformat (now E j)) = true.
Proof. intros Hmono Hvalid Hle. rewrite isoformat_leb by auto. auto. Qed.

Lemma stamped_ordered E w : stamped E w -> updated_not_before_created w.
Proof.
  intros Hw path record Hfile.
  destruct (Hw path record Hfile) as (created & k & Hc & Hu & _ & Hord).
  unfold stamps_ordered. rewrite Hc, Hu. exact Hord.
Qed.

(** Every admissible operation keeps the records stamped. *)
Lemma stamped_step E o w :
  monotone E -> well_formed E ->
  stamped E w -> admissible E w o -> stamped E (step E o w).
Proof.
  intros Hmono Hvalid Hw Hadm. destruct o as [title|id data|id role content md|id];
    cbn [step].
  - rewrite create_conversation_run. cbn [snd].
    apply stamped_write; [destruct title as [[|c s]|]; lia| |exact Hw].
    eexists _, _. split; [reflexivity|]. split; [reflexivity|].
    split; [lia|]. apply stamps_in_order; auto.
  - destruct Hadm as (created & Hcreated & Hord).
    destruct data as [| | | | | |d]; try discriminate.
    rewrite save_conversation_dict. cbn [snd].
    apply stamped_write; [lia| |exact Hw].
    exists created, (clock w). cbn [field] in *.
    rewrite dict_get_set_eq, dict_get_set_ne by discriminate.
    repeat split; auto.
  - destruct (add_message_run E id role content md w)
      as [[Hfs Hclock]|(d & l & message & Hfile & ->)].
    + eapply stamped_same_files; eauto.
    + apply stamped_write; [lia| |exact Hw].
      destruct (Hw _ _ Hfile) as (created & k & Hc & Hu & Hk & Hord).
      exists created, (S (clock w)). cbn [field] in *.
      rewrite dict_get_set_eq, !dict_get_set_ne by discriminate.
      repeat split; auto.
      eapply string_leb_trans; [exact Hord|].
      apply stamps_in_order; auto. lia.
  - destruct (delete_conversation_run id w) as [->| ->]; [exact Hw|].
    apply stamped_delete, Hw.
Qed.

Lemma stamped_run E ops : forall w,
  monotone E -> well_formed E ->
  stamped E w -> all_admissible E ops w -> stamped E (run E ops w).
Proof.
  induction ops as [|o ops IH]; intros w Hmono Hvalid Hw Hadm; [exact Hw|].
  destruct Hadm as [Ho Hops]. cbn [run].
  apply IH; auto. apply stamped_step; auto.
Qed.

(** A record that an operation writes carries the last reading of the
    clock as [updated_at]. *)
Lemma step_refreshes_updated_at E o w path record :
  fs (step E o w) !! path = Some (Document record) ->
  fs w !! path <> Some (Document record) ->
  field "updated_at" record
  = Some (JStr (isoformat (now E (clock (step E o w) - 1)))).
Proof.
  intros Hnew Hold. destruct o as [title|id data|id role content md|id];
    cbn [step] in *.
  - rewrite create_conversation_run in *. cbn [snd fs clock] in *.
    destruct (decide (file_path (strftime_id (now E (clock w))) = path)) as [Hp|Hp].
    + rewrite Hp, lookup_insert_eq in Hnew. injection Hnew as <-.
      destruct title as [[|c s]|]; reflexivity.
    + rewrite lookup_insert_ne in Hnew by assumption. contradiction.
  - destruct data as [| | | | | |d];
      try (cbn in Hnew; contradiction).
    rewrite save_conversation_dict in *. cbn [snd fs clock] in *.
    destruct (decide (file_path id = path)) as [Hp|Hp].
    + rewrite Hp, lookup_insert_eq in Hnew. injection Hnew as <-.
      cbn [field]. rewrite dict_get_set_eq.
      first [reflexivity | repeat f_equal; lia].
    + rewrite lookup_insert_ne in Hnew by assumption. contradiction.
  - destruct (add_message_run E id role content md w)
      as [[Hfs Hclock]|(d & l & message & Hfile & Hrun)].
    + rewrite Hfs in Hnew. contradiction.
    + rewrite Hrun in *. cbn [fs clock] in *.
      destruct (decide (file_path id = path)) as [Hp|Hp].
      * rewrite Hp, lookup_insert_eq in Hnew. injection Hnew as <-.
        cbn [field]. rewrite dict_get_set_eq.
      first [reflexivity | repeat f_equal; lia].
      * rewrite lookup_insert_ne in Hnew by assumption. contradiction.
  - destruct (delete_conversation_run id w) as [Hrun|Hrun];
      rewrite Hrun in *; [contradiction|]. cbn [fs] in *.
    destruct (decide (file_path id = path)) as [Hp|Hp].
    + rewrite Hp, lookup_delete_eq in Hnew. discriminate.
    + rewrite lookup_delete_ne in Hnew by assumption. contradiction.
Qed.

Lemma ticking_monotone : monotone ticking.
Proof.
  intros i j Hle. unfold leb, compare. cbn.
  destruct (Z.compare_spec (Z.min (Z.of_nat i) 999999) (Z.min (Z.of_nat j) 999999));
    (reflexivity || lia).
Qed.

Lemma ticking_well_formed : well_formed ticking.
Proof. intros i. unfold valid. cbn. lia. Qed.

(** *** The claims on the conversation store *)

(** C5.  For an id with no stored record [add_message] returns false and
    leaves the world as it was: nothing is appended, and no record appears
    under that id or any other. *)
Theorem add_message_unknown_conversation
    E conversation_id role content metadata w :
  fs w !! file_path conversation_id = None ->
  add_message E conversation_id role content metadata w = (Return false, w) /\
  fs (snd (add_message E conversation_id role content metadata w)) = fs w /\
  fs (snd (add_message E conversation_id role content metadata w))
    !! file_path conversation_id = None.
Proof.
  intros Habsent.
  assert (add_message E conversation_id role content metadata w
          = (Return false, w)) as Hrun.
  { unfold add_message, load_conversation, read_file, bind.
    rewrite Habsent. reflexivity. }
  rewrite Hrun. repeat split. exact Habsent.
Qed.

Lemma add_message_unknown_conversation_witness :
  fs empty_store !! file_path "20240101_000000" = None /\
  add_message ticking "20240101_000000" "user" "hi" None empty_store
  = (Return false, empty_store) /\
  fs (snd (add_message ticking "20240101_000000" "user" "hi" None empty_store))
  = fs empty_store /\
  fs (snd (add_message ticking "20240101_000000" "user" "hi" None empty_store))
    !! file_path "20240101_000000" = None.
Proof.
  split; [reflexivity|].
  apply (add_message_unknown_conversation ticking "20240101_000000" "user" "hi"
           None empty_store).
  reflexivity.
Defined.

(** C6, as the code has it.  [create_conversation] followed by
    [load_conversation] of the returned id yields a record with an empty
    list of messages whose title is the generated one when no title or an
    empty title was given, and the given title otherwise. *)
Theorem create_then_load E title w :
  exists conversation_id record,
    fst (create_conversation E title w) = Return conversation_id /\
    fst (load_conversation conversation_id
           (snd (create_conversation E title w))) = Return record /\
    field "messages" record = Some (JList []) /\
    field "title" record = Some (JStr (expected_title E w title)) /\
    expected_title E w None = generated_title E w /\
    expected_title E w (Some "") = generated_title E w /\
    forall c s, expected_title E w (Some (String c s)) = String c s.
Proof.
  rewrite create_conversation_run. cbn [fst snd].
  eexists _, _. split; [reflexivity|].
  unfold load_conversation, read_file, bind. cbn [fs].
  rewrite lookup_insert_eq. split; [reflexivity|].
  repeat split.
Qed.

(** C6, against the claim as stated: an empty title is a title that was
    given, and the record does not keep it. *)
Lemma empty_title_is_replaced :
  exists conversation_id record,
    fst (create_conversation ticking (Some "") empty_store)
    = Return conversation_id /\
    fst (load_conversation conversation_id
           (snd (create_conversation ticking (Some "") empty_store)))
    = Return record /\
    field "title" record = Some (JStr "Chat March 09 at 02:05 PM") /\
    field "title" record <> Some (JStr "").
Proof.
  eexists _, _. split; [reflexivity|]. split; [vm_compute; reflexivity|].
  split; [reflexivity | discriminate].
Qed.

(** C9, as the code has it.  From an empty store, through
    [create_conversation], [add_message], [delete_conversation] and
    [save_conversation] of records whose [created_at] is not later than the
    time of the call, with a clock that does not go back: every stored
    record has [updated_at >= created_at]; and whatever the store, a record
    that an operation writes has the last reading of the clock as
    [updated_at]. *)
Theorem updated_at_refreshed_and_ordered E ops n :
  monotone E -> well_formed E ->
  all_admissible E ops {| fs := ∅; clock := n |} ->
  updated_not_before_created (run E ops {| fs := ∅; clock := n |}) /\
  forall o w path record,
    fs (step E o w) !! path = Some (Document record) ->
    fs w !! path <> Some (Document record) ->
    field "updated_at" record
    = Some (JStr (isoformat (now E (clock (step E o w) - 1)))).
Proof.
  intros Hmono Hvalid Hadm. split.
  - apply (stamped_ordered E), stamped_run; auto.
    intros path record Hfile. cbn in Hfile. rewrite lookup_empty in Hfile.
    discriminate.
  - apply step_refreshes_updated_at.
Qed.

Lemma updated_at_refreshed_and_ordered_witness :
  monotone ticking /\ well_formed ticking /\
  all_admissible ticking
    [Create None;
     AddMessage "20240309_140507" "user" "hi" None;
     Save "archive"
       (JDict [("id", JStr "archive");
               ("created_at", JStr "2024-01-01T00:00:00");
               ("messages", JList [])])]
    {| fs := ∅; clock := 0 |} /\
  updated_not_before_created
    (run ticking
       [Create None;
        AddMessage "20240309_140507" "user" "hi" None;
        Save "archive"
          (JDict [("id", JStr "archive");
                  ("created_at", JStr "2024-01-01T00:00:00");
                  ("messages", JList [])])]
       {| fs := ∅; clock := 0 |}) /\
  forall o w path record,
    fs (step ticking o w) !! path = Some (Document record) ->
    fs w !! path <> Some (Document record) ->
    field "updated_at" record
    = Some (JStr (isoformat (now ticking (clock (step ticking o w) - 1)))).
Proof.
  assert (all_admissible ticking
            [Create None;
             AddMessage "20240309_140507" "user" "hi" None;
             Save "archive"
               (JDict [("id", JStr "archive");
                       ("created_at", JStr "2024-01-01T00:00:00");
                       ("messages", JList [])])]
            {| fs := ∅; clock := 0 |}) as Hadm.
  { split; [exact I|]. split; [exact I|]. split; [|exact I].
    eexists. split; [reflexivity | vm_compute; reflexivity]. }
  split; [exact ticking_monotone|]. split; [exact ticking_well_formed|].
  split; [exact Hadm|].
  exact (updated_at_refreshed_and_ordered ticking _ 0 ticking_monotone
           ticking_well_formed Hadm).
Defined.

(** C9, against the claim as stated: [save_conversation] stamps
    [updated_at] and writes whatever else it is given; a record that comes
    with a later [created_at] is stored with [updated_at < created_at]. *)
Lemma future_created_at_breaks_order :
  monotone ticking /\ well_formed ticking /\
  fs (run ticking [Save "x" from_the_future] empty_store) !! file_path "x"
  = Some (Document
            (JDict [("id", JStr "x");
                    ("title", JStr "Plans");
                    ("created_at", JStr "2999-01-01T00:00:00");
                    ("updated_at", JStr "2024-03-09T14:05:07");
                    ("messages", JList [])])) /\
  ~ updated_not_before_created
      (run ticking [Save "x" from_the_future] empty_store).
Proof.
  split; [exact ticking_monotone|]. split; [exact ticking_well_formed|].
  assert (fs (run ticking [Save "x" from_the_future] empty_store)
            !! file_path "x"
          = Some (Document
                    (JDict [("id", JStr "x");
                            ("title", JStr "Plans");
                            ("created_at", JStr "2999-01-01T00:00:00");
                            ("updated_at", JStr "2024-03-09T14:05:07");
                            ("messages", JList [])]))) as Hfile
    by (vm_compute; reflexivity).
  split; [exact Hfile|].
  intros Hordered. specialize (Hordered _ _ Hfile). discriminate Hordered.
Qed.

End StoreFacts.

(** ** The completion client: the whole run *)
Module ClientExtras.

Import LLMService ClientSpec ClientRuns ClientFacts.

Lemma not_exception_not_api_error e :
  isinstance e Exception = false ->
  isinstance e APIError = false /\ isinstance e RateLimitError = false /\
  isinstance e AuthenticationError = false.
Proof. destruct e as [[] msg]; vm_compute; intros; repeat split; congruence. Qed.

Section Run.

Variable E : env.
Variables message model : string.
Variable messages : list turn.
Variable max_tokens : Z.
Variable temperature : float.
Variable start_time : float.
Variable info : model_info.
Hypothesis model_known : models !! model = Some info.

Let req : request :=
  completion_request model messages max_tokens temperature info.

Lemma attempt_body_responds w r :
  create E (length (calls w)) req = Responds r ->
  attempt_body E message model messages max_tokens temperature start_time w
  = (Return (Returned (completed message model r
                         (fsub (time_time E (clock_reads w)) start_time))),
     with_clock_read (with_call req w)).
Proof.
  intros H. unfold attempt_body, models_getitem, bind, completions_create.
  rewrite model_known. cbn. fold req. rewrite H. cbn. unfold completed.
  destruct (choices r) as [|[[m|]] ?]; reflexivity.
Qed.

(** A handled exception before the last attempt: one line logged, one
    second slept, nothing else. *)
Lemma attempt_handlers_continue attempt e w :
  isinstance e Exception = true ->
  (attempt =? Config.MAX_RETRIES - 1)%Z = false ->
  exists w',
    attempt_handlers E attempt start_time e w = (Return Continue, w') /\
    calls w' = calls w /\ sleeps w' = 1%Z :: sleeps w /\
    clock_reads w' = clock_reads w.
Proof.
  intros Hexn Hlast. unfold attempt_handlers. rewrite Hlast.
  destruct (isinstance e APIError) eqn:Hapi.
  - eexists. split; [reflexivity|]. repeat split.
  - destruct (isinstance e RateLimitError) eqn:Hrate.
    { apply rate_limit_error_is_api_error in Hrate. congruence. }
    destruct (isinstance e AuthenticationError) eqn:Hauth.
    { apply authentication_error_is_api_error in Hauth. congruence. }
    rewrite Hexn. eexists. split; [reflexivity|]. repeat split.
Qed.

(** A handled exception on the last attempt: one line logged, the clock
    read, the failure returned. *)
Lemma attempt_handlers_last attempt e w :
  isinstance e Exception = true ->
  (attempt =? Config.MAX_RETRIES - 1)%Z = true ->
  exists w',
    attempt_handlers E attempt start_time e w
    = (Return (Returned (Failure (handler_text e)
                           (PyFloat (fsub (time_time E (clock_reads w))
                                       start_time)))), w') /\
    calls w' = calls w /\ sleeps w' = sleeps w /\
    clock_reads w' = S (clock_reads w).
Proof.
  intros Hexn Hlast. unfold attempt_handlers, handler_text. rewrite Hlast.
  destruct (isinstance e APIError) eqn:Hapi.
  - eexists. split; [reflexivity|]. repeat split.
  - destruct (isinstance e RateLimitError) eqn:Hrate.
    { apply rate_limit_error_is_api_error in Hrate. congruence. }
    destruct (isinstance e AuthenticationError) eqn:Hauth.
    { apply authentication_error_is_api_error in Hauth. congruence. }
    rewrite Hexn. eexists. split; [reflexivity|]. repeat split.
Qed.

(** Anything that is not an [Exception] passes through the handlers. *)
Lemma attempt_handlers_propagate attempt e w :
  isinstance e Exception = false ->
  attempt_handlers E attempt start_time e w = (Raise e, w).
Proof.
  intros Hexn. destruct (not_exception_not_api_error e Hexn) as (Ha & Hr & Hk).
  unfold attempt_handlers. rewrite Ha, Hr, Hk, Hexn. reflexivity.
Qed.

(** The loop, in full: [n] attempts are made, the first [n - 1] raise a
    handled exception and cost one second each, and the n-th decides. *)
Lemma retry_loop_outcome remaining : forall attempt w,
  0 < remaining ->
  (Z.of_nat remaining + attempt = Config.MAX_RETRIES)%Z ->
  exists n,
    0 < n <= remaining /\
    (forall i, i < n - 1 ->
       exists e, create E (length (calls w) + i) req = Fails e /\
                 isinstance e Exception = true) /\
    calls (snd (retry_loop E message model messages max_tokens temperature
                  start_time remaining attempt w))
    = (repeat req n ++ calls w)%list /\
    sleeps (snd (retry_loop E message model messages max_tokens temperature
                   start_time remaining attempt w))
    = (repeat 1%Z (n - 1) ++ sleeps w)%list /\
    match create E (length (calls w) + (n - 1)) req with
    | Responds r =>
        fst (retry_loop E message model messages max_tokens temperature
               start_time remaining attempt w)
        = Return (Some (completed message model r
                          (fsub (time_time E (clock_reads w)) start_time)))
    | Fails e =>
        if isinstance e Exception then
          n = remaining /\
          fst (retry_loop E message model messages max_tokens temperature
                 start_time remaining attempt w)
          = Return (Some (Failure (handler_text e)
                            (PyFloat (fsub (time_time E (clock_reads w))
                                        start_time))))
        else
          fst (retry_loop E message model messages max_tokens temperature
                 start_time remaining attempt w) = Raise e
    end.
Proof.
  induction remaining as [|k IH]; intros attempt w Hpos Hsum; [lia|].
  destruct (retry_loop E message model messages max_tokens temperature
              start_time (S k) attempt w) as [o w'] eqn:Hrun.
  rewrite retry_loop_step in Hrun. unfold bind at 1, try_except in Hrun.
  cbn [fst snd].
  destruct (create E (length (calls w)) req) as [r|e] eqn:Hreply.
  - rewrite (attempt_body_responds w r Hreply) in Hrun.
    injection Hrun as <- <-.
    exists 1. replace (length (calls w) + (1 - 1)) with (length (calls w)) by lia.
    rewrite Hreply. repeat split; try lia.
  - rewrite (attempt_body_fails E message model messages max_tokens temperature
               start_time info model_known w e Hreply) in Hrun.
    cbv beta iota in Hrun. fold req in Hrun.
    destruct (isinstance e Exception) eqn:Hexn.
    + destruct (attempt =? Config.MAX_RETRIES - 1)%Z eqn:Hlast.
      * destruct (attempt_handlers_last attempt e (with_call req w) Hexn Hlast)
          as (w1 & Hh & Hc & Hs & Hr).
        rewrite Hh in Hrun. injection Hrun as <- <-.
        assert (k = 0) as -> by (apply Z.eqb_eq in Hlast; lia).
        exists 1. replace (length (calls w) + (1 - 1)) with (length (calls w)) by lia.
        rewrite Hreply, Hexn, Hc, Hs. repeat split; try lia.
      * destruct (attempt_handlers_continue attempt e (with_call req w) Hexn Hlast)
          as (w1 & Hh & Hc & Hs & Hr).
        rewrite Hh in Hrun.
        apply Z.eqb_neq in Hlast.
        destruct (IH (attempt + 1)%Z w1 ltac:(lia) ltac:(lia))
          as (n & Hn & Hbefore & Hcalls & Hsleeps & Hdecide).
        rewrite Hrun in Hcalls, Hsleeps, Hdecide. cbn [fst snd] in *.
        exists (S n). rewrite Hcalls, Hsleeps, Hc, Hs.
        rewrite Hc in Hbefore, Hdecide. rewrite Hr in Hdecide.
        cbn [calls sleeps clock_reads with_call length] in *.
        split; [lia|]. split; [|split; [|split]].
        -- intros i Hi. destruct i as [|i].
           ++ exists e. rewrite Nat.add_0_r. auto.
           ++ destruct (Hbefore i ltac:(lia)) as (e' & He' & Hexn').
              exists e'. replace (length (calls w) + S i)
                with (S (length (calls w)) + i) by lia. auto.
        -- rewrite repeat_app_cons. reflexivity.
        -- replace (S n - 1) with (S (n - 1)) by lia.
           cbn [repeat]. rewrite repeat_app_cons. reflexivity.
        -- replace (length (calls w) + (S n - 1))
             with (S (length (calls w)) + (n - 1)) by lia.
           destruct (create E (S (length (calls w)) + (n - 1)) req) as [r'|e'];
             [exact Hdecide|].
           destruct (isinstance e' Exception); [|exact Hdecide].
           destruct Hdecide as [-> Hd]. split; [reflexivity | exact Hd].
    + rewrite (attempt_handlers_propagate attempt e (with_call req w) Hexn) in Hrun.
      injection Hrun as <- <-.
      exists 1. replace (length (calls w) + (1 - 1)) with (length (calls w)) by lia.
      rewrite Hreply, Hexn. repeat split; try lia.
Qed.

End Run.


Lemma calls_made_app before after (new : list request) :
  calls after = (new ++ calls before)%list -> calls_made before after = length new.
Proof. intros H. unfold calls_made. rewrite H, length_app. lia. Qed.

Lemma sleeps_made_app before after (new : list Z) :
  sleeps after = (new ++ sleeps before)%list -> sleeps_made before after = new.
Proof.
  intros H. unfold sleeps_made. rewrite H, length_app.
  replace (length new + length (sleeps before) - length (sleeps before))
    with (length new) by lia.
  apply take_app_length.
Qed.

(** A validated call, in full. *)
Lemma send_message_outcome E message model temperature max_tokens system_prompt w :
  passes_validation message ->
  exists info n,
    models !! resolve_model model = Some info /\
    0 < n <= 3 /\
    (forall i, i < n - 1 ->
       exists e,
         create E (length (calls w) + i)
           (completion_request (resolve_model model)
              (prepare_messages message system_prompt) max_tokens temperature
              info) = Fails e /\
         isinstance e Exception = true) /\
    calls (snd (send_message E message model temperature max_tokens
                  system_prompt w))
    = (repeat (completion_request (resolve_model model)
                 (prepare_messages message system_prompt) max_tokens
                 temperature info) n ++ calls w)%list /\
    sleeps (snd (send_message E message model temperature max_tokens
                   system_prompt w))
    = (repeat 1%Z (n - 1) ++ sleeps w)%list /\
    match create E (length (calls w) + (n - 1))
            (completion_request (resolve_model model)
               (prepare_messages message system_prompt) max_tokens temperature
               info) with
    | Responds r =>
        fst (send_message E message model temperature max_tokens
               system_prompt w)
        = Return (Some (completed message (resolve_model model) r
                          (fsub (time_time E (S (clock_reads w)))
                             (time_time E (clock_reads w)))))
    | Fails e =>
        if isinstance e Exception then
          n = 3 /\
          fst (send_message E message model temperature max_tokens
                 system_prompt w)
          = Return (Some (Failure (handler_text e)
                            (PyFloat (fsub (time_time E (S (clock_reads w)))
                                        (time_time E (clock_reads w))))))
        else
          fst (send_message E message model temperature max_tokens
                 system_prompt w) = Raise e
    end.
Proof.
  intros Hvalid. rewrite (send_message_valid _ _ _ _ _ _ _ Hvalid).
  destruct (resolve_model_known model) as [info Hinfo].
  destruct (retry_loop_outcome E message (resolve_model model)
              (prepare_messages message system_prompt) max_tokens temperature
              (time_time E (clock_reads w)) info Hinfo 3 0%Z (with_clock_read w)
              ltac:(lia) ltac:(reflexivity))
    as (n & Hn & Hbefore & Hcalls & Hsleeps & Hdecide).
  exists info, n. cbn [calls sleeps clock_reads with_clock_read] in *.
  repeat split; auto; lia.
Qed.

(** What a call does when the message is refused. *)
Lemma send_message_refused E message model temperature max_tokens system_prompt w :
  ~ passes_validation message ->
  snd (send_message E message model temperature max_tokens system_prompt w) = w /\
  (fst (send_message E message model temperature max_tokens system_prompt w)
   = Return (Some (Failure "Empty message provided" (PyInt 0))) \/
   fst (send_message E message model temperature max_tokens system_prompt w)
   = Return (Some (Failure "Message too long. Maximum 4000 characters allowed."
                     (PyInt 0)))).
Proof.
  intros Hinvalid. unfold send_message. rewrite empty_check_spec.
  destruct (whitespace_only message) eqn:Hspace; [split; [|left]; reflexivity|].
  destruct (len message >? Config.MAX_MESSAGE_LENGTH)%Z eqn:Hlen;
    [split; [|right]; reflexivity|].
  exfalso. apply Hinvalid. split; [exact Hspace|].
  rewrite Z.gtb_ltb in Hlen. apply Z.ltb_ge in Hlen. exact Hlen.
Qed.

Lemma passes_validation_dec message :
  passes_validation message \/ ~ passes_validation message.
Proof.
  unfold passes_validation.
  destruct (whitespace_only message); [right; intros [? _]; discriminate|].
  destruct (Z.le_gt_cases (len message) Config.MAX_MESSAGE_LENGTH);
    [left; auto | right; intros [_ ?]; lia].
Qed.

(** The attempt that decides a validated call is the first one that does
    not raise a handled exception. *)
Lemma decisive_attempt E message model temperature max_tokens system_prompt w j :
  passes_validation message ->
  j < 3 ->
  (forall i req, i < j ->
     exists e, create E (length (calls w) + i) req = Fails e /\
               isinstance e Exception = true) ->
  (forall req e, create E (length (calls w) + j) req = Fails e ->
                 isinstance e Exception = false) ->
  exists info,
    models !! resolve_model model = Some info /\
    calls_made w (snd (send_message E message model temperature max_tokens
                         system_prompt w)) = S j /\
    sleeps_made w (snd (send_message E message model temperature max_tokens
                          system_prompt w)) = repeat 1%Z j /\
    match create E (length (calls w) + j)
            (completion_request (resolve_model model)
               (prepare_messages message system_prompt) max_tokens temperature
               info) with
    | Responds r =>
        fst (send_message E message model temperature max_tokens
               system_prompt w)
        = Return (Some (completed message (resolve_model model) r
                          (fsub (time_time E (S (clock_reads w)))
                             (time_time E (clock_reads w)))))
    | Fails e =>
        fst (send_message E message model temperature max_tokens
               system_prompt w) = Raise e
    end.
Proof.
  intros Hvalid Hj Hbefore Hat.
  destruct (send_message_outcome E message model temperature max_tokens
              system_prompt w Hvalid)
    as (info & n & Hinfo & Hn & Hfailed & Hcalls & Hsleeps & Hdecide).
  set (req := completion_request (resolve_model model)
                (prepare_messages message system_prompt) max_tokens
                temperature info) in *.
  assert (n - 1 = j) as Hnj.
  { destruct (Nat.lt_trichotomy (n - 1) j) as [Hlt|[Heq|Hgt]]; [|exact Heq|].
    - destruct (Hbefore (n - 1) req Hlt) as (e & He & Hexn).
      rewrite He, Hexn in Hdecide. lia.
    - destruct (Hfailed j Hgt) as (e & He & Hexn).
      rewrite (Hat req e He) in Hexn. discriminate. }
  assert (n = S j) as -> by lia. clear Hnj.
  replace (S j - 1) with j in * by lia.
  exists info. split; [exact Hinfo|].
  split; [rewrite (calls_made_app _ _ _ Hcalls), repeat_length; lia|].
  split; [apply sleeps_made_app; exact Hsleeps|].
  fold req.
  destruct (create E (length (calls w) + j) req) as [r|e] eqn:Hreply;
    [exact Hdecide|].
  rewrite (Hat req e Hreply) in Hdecide. exact Hdecide.
Qed.


(** *** Properties of a call *)

(** X1.  A validated call whose first [j] attempts (j < 3) raise handled
    exceptions and whose next attempt gets a response with a message
    returns a success: the text of the first choice, the time between the
    two clock readings, the resolved model, the reported token count and the
    local cost estimate.  It makes [j + 1] remote calls and sleeps one
    second after each failure. *)
Theorem success_after_handled_failures
    E message model temperature max_tokens system_prompt w j r m rest :
  passes_validation message ->
  j < 3 ->
  (forall i req, i < j ->
     exists e, create E (length (calls w) + i) req = Fails e /\
               isinstance e Exception = true) ->
  (forall req, create E (length (calls w) + j) req = Responds r) ->
  choices r = {| message := Some m |} :: rest ->
  fst (send_message E message model temperature max_tokens system_prompt w)
  = Return (Some (Success (message_content m)
                    (fsub (time_time E (S (clock_reads w)))
                       (time_time E (clock_reads w)))
                    (resolve_model model)
                    (match usage r with
                     | Some u => Some (total_tokens u)
                     | None => None
                     end)
                    (estimate_cost message (resolve_model model)))) /\
  calls_made w (snd (send_message E message model temperature max_tokens
                       system_prompt w)) = S j /\
  sleeps_made w (snd (send_message E message model temperature max_tokens
                        system_prompt w)) = repeat 1%Z j.
Proof.
  intros Hvalid Hj Hbefore Hat Hchoices.
  destruct (decisive_attempt E message model temperature max_tokens
              system_prompt w j Hvalid Hj Hbefore)
    as (info & Hinfo & Hcalls & Hsleeps & Hdecide).
  { intros req e He. rewrite Hat in He. discriminate. }
  rewrite Hat in Hdecide. unfold completed in Hdecide.
  rewrite Hchoices in Hdecide. auto.
Qed.

Lemma success_after_handled_failures_witness :
  passes_validation "Hello" /\ 2 < 3 /\
  fst (send_message (recovers_after 2) "Hello" "gpt-4" (float_literal 7 1)
         1000 None fresh)
  = Return (Some (Success (Some "Hello!")
                    (fsub (seconds 1) (seconds 0)) (resolve_model "gpt-4")
                    (Some 12%Z)
                    (estimate_cost "Hello" (resolve_model "gpt-4")))) /\
  calls_made fresh
    (snd (send_message (recovers_after 2) "Hello" "gpt-4" (float_literal 7 1)
            1000 None fresh)) = 3 /\
  sleeps_made fresh
    (snd (send_message (recovers_after 2) "Hello" "gpt-4" (float_literal 7 1)
            1000 None fresh)) = [1; 1]%Z.
Proof.
  assert (passes_validation "Hello") as Hvalid
    by (split; [reflexivity | vm_compute; discriminate]).
  split; [exact Hvalid|]. split; [lia|].
  apply (success_after_handled_failures (recovers_after 2) "Hello" "gpt-4"
           (float_literal 7 1) 1000 None fresh 2
           {| choices := [{| message := Some {| message_content := Some "Hello!" |} |}];
              usage := Some {| total_tokens := 12 |} |}
           {| message_content := Some "Hello!" |} [] Hvalid).
  - lia.
  - intros i req Hi.
    exists {| exn_class_of := APITimeoutError; str_of_exn := "Request timed out." |}.
    split; [|reflexivity].
    destruct i as [|[|i]]; [reflexivity | reflexivity | lia].
  - intros req. reflexivity.
  - reflexivity.
Defined.

(** X2.  A response without a usable first choice (no choice at all, or a
    first choice without a message) ends the call with the failure "Empty
    response from API": it is not retried, whatever attempts are left. *)
Theorem empty_response_is_not_retried
    E message model temperature max_tokens system_prompt w j r :
  passes_validation message ->
  j < 3 ->
  (forall i req, i < j ->
     exists e, create E (length (calls w) + i) req = Fails e /\
               isinstance e Exception = true) ->
  (forall req, create E (length (calls w) + j) req = Responds r) ->
  (choices r = [] \/ exists rest, choices r = {| message := None |} :: rest) ->
  fst (send_message E message model temperature max_tokens system_prompt w)
  = Return (Some (Failure "Empty response from API"
                    (PyFloat (fsub (time_time E (S (clock_reads w)))
                                (time_time E (clock_reads w)))))) /\
  calls_made w (snd (send_message E message model temperature max_tokens
                       system_prompt w)) = S j /\
  sleeps_made w (snd (send_message E message model temperature max_tokens
                        system_prompt w)) = repeat 1%Z j.
Proof.
  intros Hvalid Hj Hbefore Hat Hchoices.
  destruct (decisive_attempt E message model temperature max_tokens
              system_prompt w j Hvalid Hj Hbefore)
    as (info & Hinfo & Hcalls & Hsleeps & Hdecide).
  { intros req e He. rewrite Hat in He. discriminate. }
  rewrite Hat in Hdecide. unfold completed in Hdecide.
  destruct Hchoices as [Hnone|[rest Hnone]]; rewrite Hnone in Hdecide; auto.
Qed.

Lemma empty_response_is_not_retried_witness :
  passes_validation "Hello" /\ 0 < 3 /\
  fst (send_message silent "Hello" "gpt-4" (float_literal 7 1) 1000 None fresh)
  = Return (Some (Failure "Empty response from API"
                    (PyFloat (fsub (seconds 1) (seconds 0))))) /\
  calls_made fresh
    (snd (send_message silent "Hello" "gpt-4" (float_literal 7 1) 1000 None
            fresh)) = 1 /\
  sleeps_made fresh
    (snd (send_message silent "Hello" "gpt-4" (float_literal 7 1) 1000 None
            fresh)) = [].
Proof.
  assert (passes_validation "Hello") as Hvalid
    by (split; [reflexivity | vm_compute; discriminate]).
  split; [exact Hvalid|]. split; [lia|].
  apply (empty_response_is_not_retried silent "Hello" "gpt-4"
           (float_literal 7 1) 1000 None fresh 0
           {| choices := []; usage := None |} Hvalid).
  - lia.
  - intros i req Hi. lia.
  - intros req. reflexivity.
  - left. reflexivity.
Defined.

(** X3.  An exception that is not an [Exception] (a [KeyboardInterrupt])
    is caught by no clause: it leaves [send_message] at once, after the
    call that raised it, with no line logged for it and no further wait. *)
Theorem base_exception_propagates
    E message model temperature max_tokens system_prompt w j e :
  passes_validation message ->
  j < 3 ->
  (forall i req, i < j ->
     exists e', create E (length (calls w) + i) req = Fails e' /\
                isinstance e' Exception = true) ->
  (forall req, create E (length (calls w) + j) req = Fails e) ->
  isinstance e Exception = false ->
  fst (send_message E message model temperature max_tokens system_prompt w)
  = Raise e /\
  calls_made w (snd (send_message E message model temperature max_tokens
                       system_prompt w)) = S j /\
  sleeps_made w (snd (send_message E message model temperature max_tokens
                        system_prompt w)) = repeat 1%Z j.
Proof.
  intros Hvalid Hj Hbefore Hat Hexn.
  destruct (decisive_attempt E message model temperature max_tokens
              system_prompt w j Hvalid Hj Hbefore)
    as (info & Hinfo & Hcalls & Hsleeps & Hdecide).
  { intros req e' He. rewrite Hat in He. injection He as <-. exact Hexn. }
  rewrite Hat in Hdecide. auto.
Qed.

Lemma base_exception_propagates_witness :
  passes_validation "Hello" /\ 0 < 3 /\
  isinstance {| exn_class_of := KeyboardInterrupt; str_of_exn := "" |}
    Exception = false /\
  fst (send_message interrupted "Hello" "gpt-4" (float_literal 7 1) 1000 None
         fresh)
  = Raise {| exn_class_of := KeyboardInterrupt; str_of_exn := "" |} /\
  calls_made fresh
    (snd (send_message interrupted "Hello" "gpt-4" (float_literal 7 1) 1000
            None fresh)) = 1 /\
  sleeps_made fresh
    (snd (send_message interrupted "Hello" "gpt-4" (float_literal 7 1) 1000
            None fresh)) = [].
Proof.
  assert (passes_validation "Hello") as Hvalid
    by (split; [reflexivity | vm_compute; discriminate]).
  split; [exact Hvalid|]. split; [lia|]. split; [reflexivity|].
  apply (base_exception_propagates interrupted "Hello" "gpt-4"
           (float_literal 7 1) 1000 None fresh 0
           {| exn_class_of := KeyboardInterrupt; str_of_exn := "" |} Hvalid).
  - lia.
  - intros i req Hi. lia.
  - intros req. reflexivity.
  - reflexivity.
Defined.

(** X4.  Whatever the message and the endpoint, a call makes at most three
    remote calls, none exactly when the message is refused, and it sleeps
    one second between two consecutive calls and at no other time: the two
    seconds of the rate-limit clause are never slept. *)
Theorem calls_and_waits
    E message model temperature max_tokens system_prompt w :
  calls_made w (snd (send_message E message model temperature max_tokens
                       system_prompt w)) <= 3 /\
  sleeps_made w (snd (send_message E message model temperature max_tokens
                        system_prompt w))
  = repeat 1%Z
      (calls_made w (snd (send_message E message model temperature max_tokens
                            system_prompt w)) - 1) /\
  (calls_made w (snd (send_message E message model temperature max_tokens
                        system_prompt w)) = 0 <->
   ~ passes_validation message).
Proof.
  destruct (passes_validation_dec message) as [Hvalid|Hinvalid].
  - destruct (send_message_outcome E message model temperature max_tokens
                system_prompt w Hvalid)
      as (info & n & _ & Hn & _ & Hcalls & Hsleeps & _).
    rewrite (calls_made_app _ _ _ Hcalls), repeat_length.
    rewrite (sleeps_made_app _ _ _ Hsleeps).
    split; [lia|]. split; [reflexivity|]. split; [lia | tauto].
  - destruct (send_message_refused E message model temperature max_tokens
                system_prompt w Hinvalid) as [-> _].
    unfold calls_made, sleeps_made. rewrite !Nat.sub_diag. cbn.
    split; [lia|]. split; [reflexivity|]. tauto.
Qed.

(** X5.  A call never returns [None] and raises only what is not an
    [Exception].  A success names the resolved model and carries the local
    estimate for it.  The error text of a failure is one of the two
    validation texts, "Empty response from API", or the text of an exception
    behind "API Error: " or "Unexpected error: "; it is never the text of
    the rate-limit clause or of the authentication clause. *)
Theorem results_of_a_call
    E message model temperature max_tokens system_prompt w :
  match fst (send_message E message model temperature max_tokens
               system_prompt w) with
  | Return None => False
  | Return (Some (Success _ _ used _ cost)) =>
      used = resolve_model model /\
      cost = estimate_cost message (resolve_model model)
  | Return (Some (Failure err _)) =>
      (err = "Empty message provided" \/
       err = "Message too long. Maximum 4000 characters allowed." \/
       err = "Empty response from API" \/
       exists e, isinstance e Exception = true /\
                 (err = "API Error: " ++ str_of_exn e \/
                  err = "Unexpected error: " ++ str_of_exn e)) /\
      err <> "Rate limit exceeded. Please try again later." /\
      err <> "Invalid API key. Please check your configuration."
  | Raise e => isinstance e Exception = false
  end.
Proof.
  destruct (passes_validation_dec message) as [Hvalid|Hinvalid].
  - destruct (send_message_outcome E message model temperature max_tokens
                system_prompt w Hvalid)
      as (info & n & _ & _ & _ & _ & _ & Hdecide).
    destruct (create E _ _) as [r|e].
    + rewrite Hdecide. unfold completed.
      destruct (choices r) as [|[[m|]] rest].
      * split; [auto|]. split; discriminate.
      * split; reflexivity.
      * split; [auto|]. split; discriminate.
    + destruct (isinstance e Exception) eqn:Hexn.
      * destruct Hdecide as [_ ->]. unfold handler_text.
        destruct (isinstance e APIError).
        -- split; [right; right; right; exists e; auto|]. split; discriminate.
        -- split; [right; right; right; exists e; auto|]. split; discriminate.
      * rewrite Hdecide. exact Hexn.
  - destruct (send_message_refused E message model temperature max_tokens
                system_prompt w Hinvalid) as [_ [-> | ->]].
    + split; [auto|]. split; discriminate.
    + split; [auto|]. split; discriminate.
Qed.

Lemma min_int_is_min a b : min_int a b = Z.min a b.
Proof. unfold min_int. destruct (Z.ltb_spec b a); lia. Qed.

(** X6.  Every request of a call names a model of the capability table
    (the resolved one), asks for the smaller of the requested and the
    model's maximal token count, sets the timeout to 30 seconds and carries
    the user's message as its last turn, after the system prompt when one
    that is not empty was given. *)
Theorem shape_of_requests
    E message model temperature max_tokens system_prompt w req :
  req ∈ requests_sent w
          (snd (send_message E message model temperature max_tokens
                  system_prompt w)) ->
  exists info,
    models !! req_model req = Some info /\
    req_model req = resolve_model model /\
    req_max_tokens req = Z.min max_tokens (LLMService.max_tokens info) /\
    req_timeout req = 30%Z /\
    req_messages req
    = match system_prompt with
      | Some (String c p) =>
          [{| role := "system"; content := String c p |};
           {| role := "user"; content := message |}]
      | _ => [{| role := "user"; content := message |}]
      end.
Proof.
  intros Hin.
  destruct (send_message_requests E message model temperature max_tokens
              system_prompt w) as (n & info & _ & Hinfo & Hsent).
  rewrite Hsent in Hin. apply list_elem_of_In, repeat_spec in Hin. subst req.
  exists info. cbn [completion_request req_model req_max_tokens req_timeout
                      req_messages].
  split; [exact Hinfo|]. split; [reflexivity|].
  split; [apply min_int_is_min|]. split; [reflexivity|].
  destruct system_prompt as [[|c p]|]; reflexivity.
Qed.

Lemma shape_of_requests_witness :
  exists req info,
    req ∈ requests_sent fresh
            (snd (send_message answers "Hello" "gpt-5" (float_literal 7 1)
                    5000 (Some "Be brief.") fresh)) /\
    models !! req_model req = Some info /\
    req_model req = resolve_model "gpt-5" /\
    req_max_tokens req = Z.min 5000 (LLMService.max_tokens info) /\
    req_timeout req = 30%Z /\
    req_messages req
    = [{| role := "system"; content := "Be brief." |};
       {| role := "user"; content := "Hello" |}].
Proof.
  assert ({| req_model := "gpt-3.5-turbo";
             req_messages := [{| role := "system"; content := "Be brief." |};
                              {| role := "user"; content := "Hello" |}];
             req_max_tokens := 4096;
             req_temperature := clamp_temperature (float_literal 7 1);
             req_timeout := 30 |}
          ∈ requests_sent fresh
              (snd (send_message answers "Hello" "gpt-5" (float_literal 7 1)
                      5000 (Some "Be brief.") fresh))) as Hin
    by (vm_compute; apply list_elem_of_here).
  destruct (shape_of_requests answers "Hello" "gpt-5" (float_literal 7 1) 5000
              (Some "Be brief.") fresh _ Hin) as (info & H).
  eexists _, info. split; [exact Hin | exact H].
Defined.

(** The three entries of the capability table. *)
Lemma models_entries model info :
  models !! model = Some info ->
  cost_per_1k info = float_literal 15 4 \/
  cost_per_1k info = float_literal 3 2 \/
  cost_per_1k info = float_literal 1 2.
Proof.
  unfold models. intros H.
  repeat (rewrite lookup_insert in H; case_decide;
          [injection H as <-; cbn; auto|]).
  rewrite lookup_empty in H. discriminate.
Qed.

(** X7.  The two ends of the estimate: for every model id the estimate of
    an empty message is 0.0, and for a model of the table the estimate of a
    message of 4000 characters, the longest that [send_message] accepts, is
    exactly the price of a thousand tokens. *)
Theorem estimate_cost_ends message model :
  estimate_cost "" model = S754_zero false /\
  (forall info,
     models !! model = Some info ->
     len message = Config.MAX_MESSAGE_LENGTH ->
     estimate_cost message model = cost_per_1k info).
Proof.
  split.
  - unfold estimate_cost. destruct (models !! model) as [info|] eqn:Hinfo;
      [|reflexivity].
    destruct (models_entries model info Hinfo) as [-> | [-> | ->]];
      vm_compute; reflexivity.
  - intros info Hinfo Hlen. unfold estimate_cost. rewrite Hinfo, Hlen.
    destruct (models_entries model info Hinfo) as [-> | [-> | ->]];
      vm_compute; reflexivity.
Qed.

Lemma strip_truthy_iff text : truthy (strip text) = negb (whitespace_only text).
Proof.
  destruct (whitespace_only text) eqn:H.
  - rewrite (strip_whitespace_only text H). reflexivity.
  - apply strip_truthy, H.
Qed.

(** X23.  The system prompt goes from the text area of the selector into
    the requests as it was typed: a text of spaces only (or none) gives
    requests with the user's turn alone, any other text is the content of a
    first, system turn, with its leading and trailing spaces. *)
Theorem selected_system_prompt_in_requests
    E message model temperature max_tokens text w req :
  req ∈ requests_sent w
          (snd (send_message E message model temperature max_tokens
                  (ChatSidebar.selected_system_prompt text) w)) ->
  req_messages req
  = if whitespace_only text
    then [{| role := "user"; content := message |}]
    else [{| role := "system"; content := text |};
          {| role := "user"; content := message |}].
Proof.
  intros Hin.
  destruct (send_message_requests E message model temperature max_tokens
              (ChatSidebar.selected_system_prompt text) w)
    as (n & info & _ & _ & Hsent).
  rewrite Hsent in Hin. apply list_elem_of_In, repeat_spec in Hin. subst req.
  cbn [completion_request req_messages].
  unfold ChatSidebar.selected_system_prompt, prepare_messages.
  rewrite strip_truthy_iff.
  destruct (whitespace_only text) eqn:Hspace; cbn [negb]; [reflexivity|].
  rewrite (truthy_not_whitespace_only text Hspace). reflexivity.
Qed.

Lemma selected_system_prompt_in_requests_witness :
  exists req,
    req ∈ requests_sent fresh
            (snd (send_message answers "Hello" "gpt-4" (float_literal 7 1) 1000
                    (ChatSidebar.selected_system_prompt " Be brief. ") fresh)) /\
    req_messages req
    = if whitespace_only " Be brief. "
      then [{| role := "user"; content := "Hello" |}]
      else [{| role := "system"; content := " Be brief. " |};
            {| role := "user"; content := "Hello" |}].
Proof.
  assert ({| req_model := "gpt-4";
             req_messages := [{| role := "system"; content := " Be brief. " |};
                              {| role := "user"; content := "Hello" |}];
             req_max_tokens := 1000;
             req_temperature := clamp_temperature (float_literal 7 1);
             req_timeout := 30 |}
          ∈ requests_sent fresh
              (snd (send_message answers "Hello" "gpt-4" (float_literal 7 1) 1000
                      (ChatSidebar.selected_system_prompt " Be brief. ") fresh)))
    as Hin by (vm_compute; apply list_elem_of_here).
  eexists. split; [exact Hin|].
  exact (selected_system_prompt_in_requests answers "Hello" "gpt-4"
           (float_literal 7 1) 1000 " Be brief. " fresh _ Hin).
Defined.

Lemma models_max_tokens model info :
  models !! model = Some info -> (1000 <= LLMService.max_tokens info)%Z.
Proof.
  unfold models. intros H.
  repeat (rewrite lookup_insert in H; case_decide;
          [injection H as <-; cbn; lia|]).
  rewrite lookup_empty in H. discriminate.
Qed.

(** X24.  [test_connection] is never refused by the validation: whatever
    the model id, it calls the endpoint at least once and at most three
    times, each time with the resolved model, the one user turn "Hello! This
    is a connection test.", 1000 tokens and the temperature 0.7, neither of
    them clamped. *)
Theorem test_connection_reaches_the_endpoint E model w :
  1 <= calls_made w (snd (test_connection E model w)) <= 3 /\
  forall req,
    req ∈ requests_sent w (snd (test_connection E model w)) ->
    req_model req = resolve_model model /\
    req_messages req
    = [{| role := "user"; content := "Hello! This is a connection test." |}] /\
    req_max_tokens req = 1000%Z /\
    req_temperature req = float_literal 7 1.
Proof.
  unfold test_connection.
  assert (passes_validation "Hello! This is a connection test.") as Hvalid
    by (split; [reflexivity | vm_compute; discriminate]).
  split.
  - destruct (send_message_outcome E "Hello! This is a connection test." model
                (float_literal 7 1) 1000 None w Hvalid)
      as (info & n & _ & Hn & _ & Hcalls & _).
    rewrite (calls_made_app _ _ _ Hcalls), repeat_length. lia.
  - intros req Hin.
    destruct (send_message_requests E "Hello! This is a connection test." model
                (float_literal 7 1) 1000 None w) as (n & info & _ & Hinfo & Hsent).
    rewrite Hsent in Hin. apply list_elem_of_In, repeat_spec in Hin. subst req.
    cbn [completion_request req_model req_messages req_max_tokens
           req_temperature].
    split; [reflexivity|]. split; [reflexivity|].
    split; [|vm_compute; reflexivity].
    rewrite min_int_is_min. pose proof (models_max_tokens _ _ Hinfo). lia.
Qed.

End ClientExtras.

(** ** Start-up *)
Module StartupExtras.

Import LLMService Startup.

(** X8.  [validate_config] holds exactly when [get_missing_config] is
    empty, and exactly then the constructor gives a service, with the key
    and the capability table.  A key that is absent or empty makes it raise
    the [ValueError] "Missing required configuration: OPENAI_API_KEY". *)
Theorem init_needs_a_key OPENAI_API_KEY :
  (validate_config OPENAI_API_KEY = true <->
   get_missing_config OPENAI_API_KEY = []) /\
  (validate_config OPENAI_API_KEY = true <->
   init OPENAI_API_KEY = Service OPENAI_API_KEY models) /\
  (OPENAI_API_KEY = None \/ OPENAI_API_KEY = Some "" <->
   init OPENAI_API_KEY
   = ValueError "Missing required configuration: OPENAI_API_KEY") /\
  (validate_config OPENAI_API_KEY = false <->
   OPENAI_API_KEY = None \/ OPENAI_API_KEY = Some "").
Proof.
  destruct OPENAI_API_KEY as [[|c key]|]; cbn;
    repeat split; try tauto; try discriminate; try (intros [|]; discriminate);
    auto.
Qed.

End StartupExtras.

(** ** The conversation store: load, append, delete *)
Module StoreExtras.

Import Datetime ChatManager StoreSpec StoreFacts StoreRuns.

Lemma string_length_app s t :
  String.length (s ++ t) = String.length s + String.length t.
Proof.
  induction s as [|c s IH]; [reflexivity|].
  change (S (String.length (s ++ t)) = S (String.length s + String.length t)).
  rewrite IH. reflexivity.
Qed.



Lemma load_conversation_run conversation_id w :
  load_conversation conversation_id w
  = (Return match fs w !! file_path conversation_id with
            | Some (Document v) => v
            | _ => JNull
            end, w).
Proof.
  unfold load_conversation, read_file, bind.
  destruct (fs w !! file_path conversation_id) as [[v|]|]; reflexivity.
Qed.


(** The message that [add_message] builds. *)
Lemma add_message_success E conversation_id role content metadata w d l :
  fs w !! file_path conversation_id = Some (Document (JDict d)) ->
  dict_get "messages" d = Some (JList l) ->
  add_message E conversation_id role content metadata w
  = (Return true,
     {| fs := <[file_path conversation_id :=
                  Document
                    (JDict
                       (dict_set "updated_at"
                          (JStr (isoformat (now E (S (clock w)))))
                          (dict_set "messages"
                             (JList
                                (l ++ [JDict
                                         [("role", JStr role);
                                          ("content", JStr content);
                                          ("timestamp",
                                           JStr (isoformat (now E (clock w))));
                                          ("metadata",
                                           JDict (match metadata with
                                                  | Some (_ :: _ as m) => m
                                                  | _ => []
                                                  end))]]))
                             d)))]> (fs w);
        clock := S (S (clock w)) |}).
Proof.
  intros Hfile Hmessages.
  assert (json_truthy (JDict d) = true) as Htruthy
    by (destruct d; [discriminate | reflexivity]).
  unfold add_message, load_conversation, read_file, bind, ret, getitem.
  rewrite Hfile. cbv beta iota. rewrite Htruthy. cbn [negb].
  rewrite Hmessages. reflexivity.
Qed.



(** X11.  On a file that [json.load] rejects and on a document that is
    falsy (null, false, 0, an empty string, list or dict) [add_message]
    returns false and changes nothing, as for a missing file. *)
Theorem add_message_unusable_file E conversation_id role content metadata w :
  (fs w !! file_path conversation_id = Some Malformed \/
   exists v, fs w !! file_path conversation_id = Some (Document v) /\
             json_truthy v = false) ->
  add_message E conversation_id role content metadata w = (Return false, w).
Proof.
  intros [Hfile|(v & Hfile & Hfalsy)];
    unfold add_message, load_conversation, read_file, bind; rewrite Hfile;
    [reflexivity|]. cbn. rewrite Hfalsy. reflexivity.
Qed.

Lemma add_message_unusable_file_witness :
  (fs {| fs := {[ "draft.json" := Malformed ]}; clock := 0 |}
     !! file_path "draft" = Some Malformed \/
   exists v, fs {| fs := {[ "draft.json" := Malformed ]}; clock := 0 |}
               !! file_path "draft" = Some (Document v) /\
             json_truthy v = false) /\
  add_message ticking "draft" "user" "hi" None
    {| fs := {[ "draft.json" := Malformed ]}; clock := 0 |}
  = (Return false, {| fs := {[ "draft.json" := Malformed ]}; clock := 0 |}).
Proof.
  assert (fs {| fs := {[ "draft.json" := Malformed ]}; clock := 0 |}
            !! file_path "draft" = Some Malformed \/
          exists v, fs {| fs := {[ "draft.json" := Malformed ]}; clock := 0 |}
                      !! file_path "draft" = Some (Document v) /\
                    json_truthy v = false) as H
    by (left; reflexivity).
  split; [exact H|].
  exact (add_message_unusable_file ticking "draft" "user" "hi" None _ H).
Defined.

(** X12.  On a truthy document that is not a dict with a list under
    "messages", [add_message] does not return false: it raises (a
    [KeyError], [TypeError] or [AttributeError]) after reading the clock
    once, and writes nothing; it never adds the list itself. *)
Theorem add_message_without_message_list
    E conversation_id role content metadata w v :
  fs w !! file_path conversation_id = Some (Document v) ->
  json_truthy v = true ->
  (forall d l, v = JDict d -> dict_get "messages" d <> Some (JList l)) ->
  exists e,
    add_message E conversation_id role content metadata w
    = (Raise e, {| fs := fs w; clock := S (clock w) |}) /\
    (exn_class_of e = KeyError \/ exn_class_of e = TypeError \/
     exn_class_of e = AttributeError).
Proof.
  intros Hfile Htruthy Hnot.
  unfold add_message, load_conversation, read_file, bind. rewrite Hfile. cbn.
  rewrite Htruthy. cbn.
  destruct v as [| | | | |l|d]; cbn; try (eexists; split; [reflexivity|]; auto).
  destruct (dict_get "messages" d) as [[| | | | |l|d']|] eqn:Hm; cbn;
    try (eexists; split; [reflexivity|]; auto).
  exfalso. exact (Hnot d l eq_refl Hm).
Qed.

Lemma add_message_without_message_list_witness :
  fs {| fs := {[ "note.json" := Document (JDict [("id", JStr "note")]) ]};
        clock := 0 |} !! file_path "note"
  = Some (Document (JDict [("id", JStr "note")])) /\
  json_truthy (JDict [("id", JStr "note")]) = true /\
  exists e,
    add_message ticking "note" "user" "hi" None
      {| fs := {[ "note.json" := Document (JDict [("id", JStr "note")]) ]};
         clock := 0 |}
    = (Raise e,
       {| fs := {[ "note.json" := Document (JDict [("id", JStr "note")]) ]};
          clock := 1 |}) /\
    (exn_class_of e = KeyError \/ exn_class_of e = TypeError \/
     exn_class_of e = AttributeError).
Proof.
  split; [reflexivity|]. split; [reflexivity|].
  assert (forall d l,
            JDict [("id", JStr "note")] = JDict d ->
            dict_get "messages" d <> Some (JList l)) as Hnot
    by (intros d l [= <-]; discriminate).
  exact (add_message_without_message_list ticking "note" "user" "hi" None
           {| fs := {[ "note.json" := Document (JDict [("id", JStr "note")]) ]};
              clock := 0 |} (JDict [("id", JStr "note")])
           eq_refl eq_refl Hnot).
Defined.

Lemma delete_conversation_eq conversation_id w :
  delete_conversation conversation_id w
  = match fs w !! file_path conversation_id with
    | Some _ =>
        (Return true,
         {| fs := delete (file_path conversation_id) (fs w); clock := clock w |})
    | None => (Return false, w)
    end.
Proof.
  unfold delete_conversation, read_file, unlink, bind, ret.
  destruct (fs w !! file_path conversation_id); reflexivity.
Qed.



(** *** A conversation from its creation on *)

Lemma post_all_run E conversation_id turns : forall w d l,
  fs w !! file_path conversation_id = Some (Document (JDict d)) ->
  dict_get "messages" d = Some (JList l) ->
  is_Some (dict_get "updated_at" d) ->
  exists d' l',
    fs (post_all E conversation_id turns w) !! file_path conversation_id
    = Some (Document (JDict d')) /\
    dict_get "messages" d' = Some (JList (l ++ l')) /\
    map turn_of l' = map Some turns /\
    is_Some (dict_get "updated_at" d') /\
    forall key,
      key <> "messages" -> key <> "updated_at" ->
      dict_get key d' = dict_get key d.
Proof.
  induction turns as [|[role content] turns IH]; intros w d l Hfile Hmessages Hupdated.
  - exists d, []. rewrite app_nil_r. cbn. auto.
  - cbn [post_all].
    rewrite (add_message_success E conversation_id role content None w d l
               Hfile Hmessages). cbn [snd].
    match goal with
    | |- context [post_all _ _ _
                    {| fs := <[_ := Document
                                      (JDict (dict_set "updated_at" ?u
                                                (dict_set "messages" (JList ?l1) d)))]> _;
                       clock := ?c |}] =>
        set (d1 := dict_set "updated_at" u (dict_set "messages" (JList l1) d));
        set (w1 := {| fs := <[file_path conversation_id := Document (JDict d1)]> (fs w);
                      clock := c |});
        assert (fs w1 !! file_path conversation_id = Some (Document (JDict d1)))
          as Hfile1 by apply lookup_insert_eq;
        assert (dict_get "messages" d1 = Some (JList l1)) as Hm1
          by (unfold d1; rewrite dict_get_set_ne by discriminate;
              apply dict_get_set_eq);
        assert (is_Some (dict_get "updated_at" d1)) as Hu1
          by (unfold d1; rewrite dict_get_set_eq; eauto);
        destruct (IH w1 d1 l1 Hfile1 Hm1 Hu1)
          as (d' & l' & Hfile' & Hm' & Hturns & Hu' & Hkeys)
    end.
    eexists d', (_ :: l'). split; [exact Hfile'|].
    split; [rewrite Hm', <- app_assoc; reflexivity|].
    split; [cbn [map]; rewrite Hturns; reflexivity|].
    split; [exact Hu'|].
    intros key Hk1 Hk2. rewrite (Hkeys key Hk1 Hk2). unfold d1.
    rewrite !dict_get_set_ne by congruence. reflexivity.
Qed.

(** X14.  After [create_conversation] and then [add_message] for each
    turn of a list, [load_conversation] gives a record whose messages are
    exactly these turns, in the order of the calls; id, title and
    [created_at] are those of the creation, and the entry that
    [get_all_conversations] makes of the record counts as many messages as
    there were calls. *)
Theorem create_then_post E title turns w :
  exists d l,
    fst (load_conversation (strftime_id (now E (clock w)))
           (post_all E (strftime_id (now E (clock w))) turns
              (snd (create_conversation E title w))))
    = Return (JDict d) /\
    dict_get "messages" d = Some (JList l) /\
    map turn_of l = map Some turns /\
    dict_get "id" d = Some (JStr (strftime_id (now E (clock w)))) /\
    dict_get "title" d = Some (JStr (expected_title E w title)) /\
    (exists created,
       dict_get "created_at" d = Some (JStr (isoformat (now E created))) /\
       clock w < created) /\
    option_map Listing.message_count (Listing.summarize (JDict d))
    = Some (Z.of_nat (length turns)).
Proof.
  rewrite create_conversation_run. cbn [snd].
  match goal with
  | |- context [post_all _ _ _
                  {| fs := <[_ := Document (JDict ?d1)]> _; clock := ?c |}] =>
      set (w1 := {| fs := <[file_path (strftime_id (now E (clock w))) :=
                              Document (JDict d1)]> (fs w);
                    clock := c |});
      assert (fs w1 !! file_path (strftime_id (now E (clock w)))
              = Some (Document (JDict d1))) as Hfile1
        by apply lookup_insert_eq;
      destruct (post_all_run E (strftime_id (now E (clock w))) turns w1 d1 []
                  Hfile1 eq_refl)
        as (d & l & Hfile & Hm & Hturns & [u Hu] & Hkeys)
  end.
  { cbn. eauto. }
  exists d, l. rewrite load_conversation_run. cbn [fst]. rewrite Hfile.
  split; [reflexivity|]. split; [exact Hm|]. split; [exact Hturns|].
  pose proof (Hkeys "id" ltac:(discriminate) ltac:(discriminate)) as Hid.
  pose proof (Hkeys "title" ltac:(discriminate) ltac:(discriminate)) as Htitle.
  pose proof (Hkeys "created_at" ltac:(discriminate) ltac:(discriminate)) as Hcreated.
  cbn in Hid, Htitle, Hcreated.
  split; [exact Hid|]. split; [exact Htitle|].
  split; [eexists; split; [exact Hcreated|]; destruct title as [[|c s]|]; lia|].
  unfold Listing.summarize. rewrite Hid, Htitle, Hcreated, Hu, Hm. cbn.
  f_equal. f_equal.
  rewrite <- (length_map turn_of l), Hturns, length_map. reflexivity.
Qed.

(** Two turns and the record they leave. *)
Example create_then_post_greetings :
  fst (load_conversation "20240309_140507"
         (post_all ticking "20240309_140507" [("user", "hi"); ("assistant", "yo")]
            (snd (create_conversation ticking (Some "Plans") empty_store))))
  = Return
      (JDict [("id", JStr "20240309_140507");
              ("title", JStr "Plans");
              ("created_at", JStr "2024-03-09T14:05:07.000001");
              ("updated_at", JStr "2024-03-09T14:05:07.000007");
              ("messages",
               JList [JDict [("role", JStr "user"); ("content", JStr "hi");
                             ("timestamp", JStr "2024-03-09T14:05:07.000004");
                             ("metadata", JDict [])];
                      JDict [("role", JStr "assistant"); ("content", JStr "yo");
                             ("timestamp", JStr "2024-03-09T14:05:07.000006");
                             ("metadata", JDict [])]])]).
Proof. vm_compute. reflexivity. Qed.

(** *** The ids *)

Lemma strftime_id_compare a b :
  valid a -> valid b ->
  String.compare (strftime_id a) (strftime_id b)
  = lex_compare (to_the_second a) (to_the_second b).
Proof.
  destruct a as [y1 m1 d1 h1 mi1 s1 u1], b as [y2 m2 d2 h2 mi2 s2 u2].
  unfold valid, strftime_id, to_the_second.
  cbn [year month day hour minute second microsecond].
  intros Ha Hb. cbn [lex_compare].
  rewrite digits_compare_small by (simpl; lia).
  destruct (y1 ?= y2)%Z; try reflexivity.
  rewrite digits_compare_small by (simpl; lia).
  destruct (m1 ?= m2)%Z; try reflexivity.
  rewrite digits_compare_small by (simpl; lia).
  destruct (d1 ?= d2)%Z; try reflexivity. rewrite string_compare_sep.
  rewrite digits_compare_small by (simpl; lia).
  destruct (h1 ?= h2)%Z; try reflexivity.
  rewrite digits_compare_small by (simpl; lia).
  destruct (mi1 ?= mi2)%Z; try reflexivity.
  rewrite <- (string_app_nil_r (digits 2 s1)), <- (string_app_nil_r (digits 2 s2)).
  rewrite digits_compare_small by (simpl; lia).
  destruct (s1 ?= s2)%Z; reflexivity.
Qed.

Lemma lex_compare_eq a : forall b, lex_compare a b = Eq -> a = b.
Proof.
  induction a as [|x a IH]; intros [|y b]; cbn; try discriminate; [reflexivity|].
  destruct (Z.compare_spec x y) as [Hxy|Hxy|Hxy]; try discriminate.
  intros Hrest. subst. f_equal. auto.
Qed.

Lemma lex_compare_refl a : lex_compare a a = Eq.
Proof. induction a as [|x a IH]; cbn; [reflexivity|]. rewrite Z.compare_refl. exact IH. Qed.

Lemma string_compare_refl s : String.compare s s = Eq.
Proof.
  induction s as [|c s IH]; [reflexivity|].
  rewrite string_compare_cons. exact IH.
Qed.

(** X15.  The id of a conversation is its creation time to the second:
    on proper dates two ids are equal exactly when the two times agree to
    the second, and ids are ordered, as strings, the way the times are. *)
Theorem ids_follow_the_clock a b :
  valid a -> valid b ->
  (strftime_id a = strftime_id b <-> to_the_second a = to_the_second b) /\
  String.compare (strftime_id a) (strftime_id b)
  = lex_compare (to_the_second a) (to_the_second b).
Proof.
  intros Ha Hb. split; [|apply strftime_id_compare; assumption].
  split.
  - intros Hid. apply lex_compare_eq.
    rewrite <- strftime_id_compare by assumption. rewrite Hid.
    apply string_compare_refl.
  - intros Hsame. apply String.compare_eq_iff.
    rewrite strftime_id_compare by assumption. rewrite Hsame.
    apply lex_compare_refl.
Qed.

Lemma ids_follow_the_clock_witness :
  valid (now ticking 0) /\ valid (now ticking 5) /\
  (strftime_id (now ticking 0) = strftime_id (now ticking 5) <->
   to_the_second (now ticking 0) = to_the_second (now ticking 5)) /\
  String.compare (strftime_id (now ticking 0)) (strftime_id (now ticking 5))
  = lex_compare (to_the_second (now ticking 0)) (to_the_second (now ticking 5)).
Proof.
  split; [apply ticking_well_formed|]. split; [apply ticking_well_formed|].
  apply (ids_follow_the_clock (now ticking 0) (now ticking 5));
    apply ticking_well_formed.
Defined.

Lemma strftime_id_to_the_second a b :
  to_the_second a = to_the_second b -> strftime_id a = strftime_id b.
Proof.
  unfold to_the_second, strftime_id. intros [= -> -> -> -> -> ->]. reflexivity.
Qed.

(** X16.  A conversation created in the same second as an earlier one
    gets the id of the earlier one and takes its file: the earlier record
    and its messages are gone, the record under the id is the new, empty
    one. *)
Theorem creation_in_the_same_second_overwrites
    E title1 title2 role content w :
  to_the_second
    (now E (clock (snd (add_message E (strftime_id (now E (clock w))) role
                          content None
                          (snd (create_conversation E title1 w))))))
  = to_the_second (now E (clock w)) ->
  exists d,
    fst (create_conversation E title1 w)
    = Return (strftime_id (now E (clock w))) /\
    fst (add_message E (strftime_id (now E (clock w))) role content None
           (snd (create_conversation E title1 w))) = Return true /\
    fst (create_conversation E title2
           (snd (add_message E (strftime_id (now E (clock w))) role content
                   None (snd (create_conversation E title1 w)))))
    = Return (strftime_id (now E (clock w))) /\
    fst (load_conversation (strftime_id (now E (clock w)))
           (snd (create_conversation E title2
                   (snd (add_message E (strftime_id (now E (clock w))) role
                           content None
                           (snd (create_conversation E title1 w)))))))
    = Return (JDict d) /\
    dict_get "messages" d = Some (JList []).
Proof.
  intros Hsame. apply strftime_id_to_the_second in Hsame. revert Hsame.
  rewrite (create_conversation_run E title1 w). cbn [fst snd].
  set (id := strftime_id (now E (clock w))).
  match goal with
  | |- context [add_message E id role content None ?w1] =>
      match w1 with
      | {| fs := <[_ := Document (JDict ?d1)]> _; clock := _ |} =>
          assert (fs w1 !! file_path id = Some (Document (JDict d1))) as Hfile1
            by apply lookup_insert_eq;
          rewrite (add_message_success E id role content None w1 d1 []
                     Hfile1 eq_refl)
      end
  end.
  cbn [fst snd clock]. intros Hsame.
  rewrite (create_conversation_run E title2). cbn [fst snd fs clock].
  rewrite Hsame.
  eexists. split; [reflexivity|]. split; [reflexivity|]. split; [reflexivity|].
  rewrite load_conversation_run. cbn [fst fs]. rewrite lookup_insert_eq.
  split; reflexivity.
Qed.

Lemma creation_in_the_same_second_overwrites_witness :
  to_the_second
    (now ticking
       (clock (snd (add_message ticking (strftime_id (now ticking (clock empty_store)))
                      "user" "hi" None
                      (snd (create_conversation ticking None empty_store))))))
  = to_the_second (now ticking (clock empty_store)) /\
  exists d,
    fst (create_conversation ticking None empty_store)
    = Return (strftime_id (now ticking (clock empty_store))) /\
    fst (add_message ticking (strftime_id (now ticking (clock empty_store)))
           "user" "hi" None
           (snd (create_conversation ticking None empty_store))) = Return true /\
    fst (create_conversation ticking (Some "Again")
           (snd (add_message ticking
                   (strftime_id (now ticking (clock empty_store))) "user" "hi"
                   None (snd (create_conversation ticking None empty_store)))))
    = Return (strftime_id (now ticking (clock empty_store))) /\
    fst (load_conversation (strftime_id (now ticking (clock empty_store)))
           (snd (create_conversation ticking (Some "Again")
                   (snd (add_message ticking
                           (strftime_id (now ticking (clock empty_store)))
                           "user" "hi" None
                           (snd (create_conversation ticking None
                                   empty_store)))))))
    = Return (JDict d) /\
    dict_get "messages" d = Some (JList []).
Proof.
  split; [reflexivity|].
  exact (creation_in_the_same_second_overwrites ticking None (Some "Again")
           "user" "hi" empty_store eq_refl).
Defined.

End StoreExtras.

(** ** The list of conversations *)
Module ListingExtras.

Import Datetime ChatManager StoreSpec StoreFacts StoreRuns Listing StoreExtras.

Lemma string_ltb_leb x y : String.ltb x y = true -> String.leb x y = true.
Proof. unfold String.ltb, String.leb. destruct (String.compare x y); easy. Qed.

Lemma string_not_ltb_leb x y : String.ltb x y = false -> String.leb y x = true.
Proof.
  unfold String.ltb, String.leb. rewrite (String.compare_antisym x y).
  destruct (String.compare y x); easy.
Qed.

Lemma insert_descending_perm x l : insert_descending x l ≡ₚ x :: l.
Proof.
  induction l as [|y l IH]; cbn; [reflexivity|].
  destruct (String.ltb (updated_string x) (updated_string y)); [|reflexivity].
  rewrite IH. apply Permutation_swap.
Qed.

Lemma sort_descending_perm l : sort_descending l ≡ₚ l.
Proof.
  induction l as [|x l IH]; cbn; [reflexivity|].
  rewrite insert_descending_perm, IH. reflexivity.
Qed.

Lemma insert_descending_sorted x l :
  newest_first l -> newest_first (insert_descending x l).
Proof.
  induction l as [|y l IH]; cbn; [auto|].
  intros [Hy Hl].
  destruct (String.ltb (updated_string x) (updated_string y)) eqn:Hxy; cbn.
  - split; [|auto].
    rewrite insert_descending_perm. constructor; [|exact Hy].
    apply string_ltb_leb, Hxy.
  - apply string_not_ltb_leb in Hxy. split; [|split; assumption].
    constructor; [exact Hxy|].
    eapply Forall_impl; [exact Hy|]. cbn. intros b Hb.
    eapply string_leb_trans; eassumption.
Qed.

Lemma sort_descending_sorted l : newest_first (sort_descending l).
Proof.
  induction l as [|x l IH]; cbn; [exact I|].
  apply insert_descending_sorted, IH.
Qed.





Lemma string_stamps_write w path record n :
  (exists u, field "updated_at" record = Some (JStr u)) ->
  string_stamps w ->
  string_stamps {| fs := <[path := Document record]> (fs w); clock := n |}.
Proof.
  intros Hrecord Hw path' v Hfile. cbn in Hfile.
  destruct (decide (path = path')) as [->|Hne].
  - rewrite lookup_insert_eq in Hfile. injection Hfile as <-. exact Hrecord.
  - rewrite lookup_insert_ne in Hfile by assumption. eauto.
Qed.

Lemma string_stamps_same_files w w' :
  fs w' = fs w -> string_stamps w -> string_stamps w'.
Proof. intros Hfs Hw path v Hfile. rewrite Hfs in Hfile. eauto. Qed.

(** Whatever the operation and its arguments, it leaves a string under
    [updated_at] in every record. *)
Lemma string_stamps_step E o w : string_stamps w -> string_stamps (step E o w).
Proof.
  intros Hw. destruct o as [title|id data|id role content md|id]; cbn [step].
  - rewrite create_conversation_run. cbn [snd].
    apply string_stamps_write; [|exact Hw]. eexists. reflexivity.
  - destruct data as [| | | | | |d];
      try (apply (string_stamps_same_files w); [reflexivity | exact Hw]).
    rewrite save_conversation_dict. cbn [snd].
    apply string_stamps_write; [|exact Hw].
    eexists. cbn [field]. apply dict_get_set_eq.
  - destruct (add_message_run E id role content md w)
      as [[Hfs _]|(d & l & message & _ & ->)].
    + eapply string_stamps_same_files; eauto.
    + apply string_stamps_write; [|exact Hw].
      eexists. cbn [field]. apply dict_get_set_eq.
  - destruct (delete_conversation_run id w) as [->| ->]; [exact Hw|].
    intros path v Hfile. cbn in Hfile.
    destruct (decide (file_path id = path)) as [<-|Hne].
    + rewrite lookup_delete_eq in Hfile. discriminate.
    + rewrite lookup_delete_ne in Hfile by assumption. eauto.
Qed.

Lemma string_stamps_run E ops : forall w,
  string_stamps w -> string_stamps (run E ops w).
Proof.
  induction ops as [|o ops IH]; intros w Hw; [exact Hw|].
  cbn [run]. apply IH, string_stamps_step, Hw.
Qed.

Lemma summarize_updated_at v s :
  summarize v = Some s -> field "updated_at" v = Some (summary_updated_at s).
Proof.
  destruct v as [| | | | | |d]; try discriminate. cbn.
  destruct (dict_get "id" d), (dict_get "title" d), (dict_get "created_at" d),
    (dict_get "updated_at" d); try discriminate.
  destruct (json_len _); [|discriminate]. intros [= <-]. reflexivity.
Qed.

Lemma summaries_string_keys w names :
  string_stamps w -> forallb has_string_key (summaries (fs w) names) = true.
Proof.
  intros Hw. induction names as [|name names IH]; [reflexivity|].
  cbn [summaries]. destruct (fs w !! name) as [[v|]|] eqn:Hfile; cbn; auto.
  destruct (summarize v) as [s|] eqn:Hs; [|exact IH].
  cbn. rewrite IH, andb_true_r.
  destruct (Hw _ _ Hfile) as [u Hu].
  apply summarize_updated_at in Hs. rewrite Hu in Hs.
  unfold has_string_key. injection Hs as <-. reflexivity.
Qed.

(** X18.  In a store that was filled from an empty directory through the
    operations of the manager, with whatever arguments, every record has a
    string under [updated_at]; [get_all_conversations] then returns a list,
    ordered by [updated_at] with the latest first. *)
Theorem listing_of_a_written_store E ops n names :
  string_stamps (run E ops {| fs := ∅; clock := n |}) /\
  exists l,
    get_all_conversations names (run E ops {| fs := ∅; clock := n |})
    = (Return (Listed l), run E ops {| fs := ∅; clock := n |}) /\
    l ≡ₚ summaries (fs (run E ops {| fs := ∅; clock := n |})) names /\
    newest_first l.
Proof.
  assert (string_stamps (run E ops {| fs := ∅; clock := n |})) as Hw.
  { apply string_stamps_run. intros path v Hfile. cbn in Hfile.
    rewrite lookup_empty in Hfile. discriminate. }
  split; [exact Hw|].
  pose proof (summaries_string_keys _ names Hw) as Hkeys.
  unfold get_all_conversations.
  destruct (summaries (fs (run E ops {| fs := ∅; clock := n |})) names)
    as [|a [|b rest]] eqn:Hs.
  - eexists. split; [reflexivity|]. split; [reflexivity | exact I].
  - eexists. split; [reflexivity|]. split; [reflexivity|].
    cbn. split; [constructor | exact I].
  - rewrite Hkeys. eexists. split; [reflexivity|].
    split; [apply (sort_descending_perm (a :: b :: rest))
           |apply (sort_descending_sorted (a :: b :: rest))].
Qed.

Lemma summaries_elem files names name s :
  name ∈ names -> summarize_file (files !! name) = Some s ->
  s ∈ summaries files names.
Proof.
  intros Hin Hs. induction names as [|name' names IH]; [inversion Hin|].
  cbn [summaries]. apply elem_of_cons in Hin as [<-|Hin].
  - rewrite Hs. apply list_elem_of_here.
  - destruct (summarize_file (files !! name'));
      [apply list_elem_of_further|]; auto.
Qed.

Lemma listed_perm names w l :
  fst (get_all_conversations names w) = Return (Listed l) ->
  l ≡ₚ summaries (fs w) names.
Proof.
  unfold get_all_conversations.
  destruct (summaries (fs w) names) as [|a [|b rest]] eqn:Hs; cbn [fst].
  - intros [= <-]. reflexivity.
  - intros [= <-]. reflexivity.
  - destruct (forallb has_string_key (a :: b :: rest)); [|discriminate].
    intros [= <-]. apply (sort_descending_perm (a :: b :: rest)).
Qed.

(** X19.  A conversation that was just created is in the list that
    [get_all_conversations] returns, when [glob] yields its file: an entry
    with its id, its title, the two stamps of the record and a message
    count of 0. *)
Theorem created_conversation_is_listed E title w names l :
  file_path (strftime_id (now E (clock w))) ∈ names ->
  fst (get_all_conversations names (snd (create_conversation E title w)))
  = Return (Listed l) ->
  exists s created,
    s ∈ l /\
    summary_id s = JStr (strftime_id (now E (clock w))) /\
    summary_title s = JStr (expected_title E w title) /\
    summary_created_at s = JStr (isoformat (now E created)) /\
    summary_updated_at s = JStr (isoformat (now E (S (S created)))) /\
    clock (snd (create_conversation E title w)) = S (S (S created)) /\
    message_count s = 0%Z.
Proof.
  intros Hname Hlisted. apply listed_perm in Hlisted.
  rewrite create_conversation_run in *. cbn [snd fs clock] in *.
  eexists _, _. split.
  - rewrite Hlisted. eapply summaries_elem; [exact Hname|].
    rewrite lookup_insert_eq. reflexivity.
  - cbn. repeat split; reflexivity.
Qed.

Lemma created_conversation_is_listed_witness :
  exists l,
    file_path (strftime_id (now ticking (clock two_chats)))
      ∈ ["a.json"; "20240309_140507.json"; "b.json"; "c.json"] /\
    fst (get_all_conversations
           ["a.json"; "20240309_140507.json"; "b.json"; "c.json"]
           (snd (create_conversation ticking None two_chats)))
    = Return (Listed l) /\
    exists s created,
      s ∈ l /\
      summary_id s = JStr (strftime_id (now ticking (clock two_chats))) /\
      summary_title s = JStr (expected_title ticking two_chats None) /\
      summary_created_at s = JStr (isoformat (now ticking created)) /\
      summary_updated_at s = JStr (isoformat (now ticking (S (S created)))) /\
      clock (snd (create_conversation ticking None two_chats))
      = S (S (S created)) /\
      message_count s = 0%Z.
Proof.
  assert (file_path (strftime_id (now ticking (clock two_chats)))
            ∈ ["a.json"; "20240309_140507.json"; "b.json"; "c.json"]) as Hname
    by (apply list_elem_of_further, list_elem_of_here).
  assert (exists l,
            fst (get_all_conversations
                   ["a.json"; "20240309_140507.json"; "b.json"; "c.json"]
                   (snd (create_conversation ticking None two_chats)))
            = Return (Listed l)) as [l Hlisted]
    by (eexists; vm_compute; reflexivity).
  exists l. split; [exact Hname|]. split; [exact Hlisted|].
  exact (created_conversation_is_listed ticking None two_chats _ l Hname Hlisted).
Defined.

Lemma summaries_without files p names :
  files !! p = None ->
  summaries files names = summaries files (filter (fun name => name <> p) names).
Proof.
  intros Hp. induction names as [|name names IH]; [reflexivity|].
  destruct (decide (name = p)) as [->|Hne].
  - rewrite filter_cons_False by (intros H; apply H; reflexivity).
    cbn [summaries]. rewrite Hp. exact IH.
  - rewrite filter_cons_True by assumption. cbn [summaries]. rewrite IH.
    reflexivity.
Qed.

Lemma summaries_delete files p names :
  summaries (delete p files) names
  = summaries files (filter (fun name => name <> p) names).
Proof.
  induction names as [|name names IH]; [reflexivity|].
  destruct (decide (name = p)) as [->|Hne].
  - rewrite filter_cons_False by (intros H; apply H; reflexivity).
    cbn [summaries]. rewrite lookup_delete_eq. exact IH.
  - rewrite filter_cons_True by assumption. cbn [summaries].
    rewrite lookup_delete_ne by congruence. rewrite IH. reflexivity.
Qed.

Lemma get_all_conversations_ext names1 w1 names2 w2 :
  summaries (fs w1) names1 = summaries (fs w2) names2 ->
  fst (get_all_conversations names1 w1) = fst (get_all_conversations names2 w2).
Proof.
  intros H. unfold get_all_conversations. rewrite H.
  destruct (summaries (fs w2) names2) as [|a [|b rest]]; try reflexivity.
  destruct (forallb has_string_key (a :: b :: rest)); reflexivity.
Qed.

(** X20.  After [delete_conversation] the list is the list of the
    directory without the file of the id: the deleted conversation has no
    entry, whether or not [glob] still yields its name, and the entries of
    the others are the same. *)
Theorem deleted_conversation_is_not_listed conversation_id names w :
  fst (get_all_conversations names
         (snd (delete_conversation conversation_id w)))
  = fst (get_all_conversations
           (filter (fun name => name <> file_path conversation_id) names) w).
Proof.
  apply get_all_conversations_ext. rewrite delete_conversation_eq.
  destruct (fs w !! file_path conversation_id) eqn:Hfile; cbn [snd fs].
  - apply summaries_delete.
  - apply summaries_without, Hfile.
Qed.

End ListingExtras.

(** ** The sidebar *)
Module SidebarExtras.

Import Datetime ChatManager StoreSpec StoreFacts ChatSidebar StoreExtras.

Lemma strftime_id_truthy t : truthy (strftime_id t) = true.
Proof. unfold strftime_id. cbn [digits]. rewrite string_app_cons. reflexivity. Qed.

Lemma get_or_create_conversation_creates E a :
  (session_state a !! "current_conversation_id" = None \/
   exists c, session_state a !! "current_conversation_id" = Some c /\
             json_truthy c = false) ->
  get_or_create_conversation E a
  = (Return (JStr (strftime_id (now E (clock (store a))))),
     {| session_state :=
          <["current_conversation_id" :=
              JStr (strftime_id (now E (clock (store a))))]> (session_state a);
        store := snd (create_conversation E None (store a)) |}).
Proof.
  intros H. unfold get_or_create_conversation.
  assert ((conversation_id <- lift (create_conversation E None) ;
           set_session "current_conversation_id" (JStr conversation_id) >>
           ret (JStr conversation_id)) a
          = (Return (JStr (strftime_id (now E (clock (store a))))),
             {| session_state :=
                  <["current_conversation_id" :=
                      JStr (strftime_id (now E (clock (store a))))]>
                    (session_state a);
                store := snd (create_conversation E None (store a)) |})) as Hnew.
  { unfold bind, lift, set_session, ret.
    rewrite create_conversation_run. reflexivity. }
  destruct H as [->|(c & -> & ->)]; exact Hnew.
Qed.

(** X21.  [get_or_create_conversation] returns a truthy id and leaves it
    in the session state, so that a second call returns the same id and
    changes nothing.  With a truthy id in the session state the first call
    changes nothing either; otherwise it creates one conversation, whose id
    it returns. *)
Theorem get_or_create_conversation_settles E a :
  exists v,
    fst (get_or_create_conversation E a) = Return v /\
    json_truthy v = true /\
    session_state (snd (get_or_create_conversation E a))
      !! "current_conversation_id" = Some v /\
    get_or_create_conversation E (snd (get_or_create_conversation E a))
    = (Return v, snd (get_or_create_conversation E a)) /\
    (forall c,
       session_state a !! "current_conversation_id" = Some c ->
       json_truthy c = true ->
       get_or_create_conversation E a = (Return c, a)) /\
    (session_state a !! "current_conversation_id" = None \/
     (exists c, session_state a !! "current_conversation_id" = Some c /\
                json_truthy c = false) ->
     v = JStr (strftime_id (now E (clock (store a)))) /\
     store (snd (get_or_create_conversation E a))
     = snd (create_conversation E None (store a))).
Proof.
  assert (forall b c,
            session_state b !! "current_conversation_id" = Some c ->
            json_truthy c = true ->
            get_or_create_conversation E b = (Return c, b)) as Hkeep.
  { intros b c Hc Ht. unfold get_or_create_conversation. rewrite Hc, Ht.
    reflexivity. }
  destruct (session_state a !! "current_conversation_id") as [c|] eqn:Hc.
  - destruct (json_truthy c) eqn:Ht.
    + exists c. rewrite (Hkeep a c Hc Ht). cbn [fst snd].
      rewrite (Hkeep a c Hc Ht).
      repeat split; auto.
      * intros c' [= <-] _. reflexivity.
      * destruct H as [H|(c' & [= <-] & H)]; congruence.
      * destruct H as [H|(c' & [= <-] & H)]; congruence.
    + rewrite (get_or_create_conversation_creates E a) by eauto.
      eexists. cbn [fst snd session_state store].
      split; [reflexivity|]. split; [apply strftime_id_truthy|].
      split; [apply lookup_insert_eq|].
      split; [apply Hkeep; [apply lookup_insert_eq | apply strftime_id_truthy]|].
      split; [intros c' [= <-] Ht'; congruence|]. auto.
  - rewrite (get_or_create_conversation_creates E a) by eauto.
    eexists. cbn [fst snd session_state store].
    split; [reflexivity|]. split; [apply strftime_id_truthy|].
    split; [apply lookup_insert_eq|].
    split; [apply Hkeep; [apply lookup_insert_eq | apply strftime_id_truthy]|].
    split; [intros c' [=]|]. auto.
Qed.

Lemma substring_length n : forall s,
  String.length (substring 0 n s) = Nat.min n (String.length s).
Proof.
  induction n as [|n IH]; intros [|c s]; cbn; try reflexivity.
  rewrite IH. reflexivity.
Qed.

Lemma substring_prefix n : forall s, String.prefix (substring 0 n s) s = true.
Proof.
  induction n as [|n IH]; intros [|c s]; cbn; try reflexivity.
  destruct (ascii_dec c c); [apply IH | congruence].
Qed.

(** X22.  The label of a conversation button is the title when it has at
    most 25 characters, and otherwise the first 25 characters of the title
    followed by "...": never more than 28 characters. *)
Theorem title_display_bounds title :
  String.length (title_display title) <= 28 /\
  (String.length title <= 25 -> title_display title = title) /\
  (25 < String.length title ->
   title_display title = substring 0 25 title ++ "..." /\
   String.length (substring 0 25 title) = 25 /\
   String.prefix (substring 0 25 title) title = true).
Proof.
  unfold title_display, len.
  destruct (Z.gtb_spec (Z.of_nat (String.length title)) 25) as [Hlong|Hshort];
    cbv iota.
  - rewrite string_length_app, substring_length. cbn [String.length].
    split; [lia|]. split; [lia|]. intros _.
    split; [reflexivity|]. split; [lia|].
    apply substring_prefix.
  - split; [lia|]. split; [reflexivity|]. lia.
Qed.

End SidebarExtras.
